(** * lagaris_02_tf_adam: a physics-informed network for the lagaris02 ODE IVP

    Verification development for [lagaris_02_tf_adam.py].  The script
    trains a one-hidden-layer network [N(x)] so that the trial solution
    [y = x*N] satisfies [dy/dx + y/5 = exp(-x/5) cos x], using TensorFlow's
    gradient tapes and the Adam optimizer, and records the loss and the
    parameters of every epoch.

    The script is written against TensorFlow: the arithmetic of tensors,
    the random generator behind the Keras initializers, the elementary
    functions.  The embedding keeps that interface as a class ([tf.Ops]) and
    writes the program once, over any implementation of it.  Two
    implementations are given at the end of the definitions: IEEE 754
    binary32 (the [dtype=tf.float32] of the script), which computes, and
    the real numbers, which is the arithmetic the equations are stated in. *)

From Stdlib Require Import Ascii String ZArith Bool Lia Arith List.
From Stdlib Require Import Reals Lra.
From Stdlib Require Import Floats.SpecFloat.
Import ListNotations.

Set Implicit Arguments.
Local Open Scope list_scope.

(* ================================================================== *)
(** ** The TensorFlow interface used by the script *)
(* ================================================================== *)

Module tf.

(** Scalars of a tensor, the operations the script applies to them
    ([+], [-], [*], [/], unary minus, [tf.math.exp], [tf.math.cos],
    [tf.keras.activations.sigmoid], the square root of Adam), the test
    and the order a reader of the histories would use ([np.isfinite],
    [<=]), and the global random generator ([tf.random.set_seed], and one
    uniform draw in [[minval, maxval]] as the Keras initializers request
    it). *)
Class Ops : Type := {
  F : Type;
  of_Z : Z -> F;
  add : F -> F -> F;
  sub : F -> F -> F;
  mul : F -> F -> F;
  div : F -> F -> F;
  neg : F -> F;
  sqrt : F -> F;
  exp : F -> F;
  cos : F -> F;
  sigmoid : F -> F;
  is_finite : F -> bool;
  le : F -> F -> Prop;
  generator : Type;
  set_seed : Z -> generator;
  uniform : generator -> F -> F -> F * generator
}.

End tf.

Declare Scope tf_scope.
Delimit Scope tf_scope with tf.
Notation "a + b" := (tf.add a b) : tf_scope.
Notation "a - b" := (tf.sub a b) : tf_scope.
Notation "a * b" := (tf.mul a b) : tf_scope.
Notation "a / b" := (tf.div a b) : tf_scope.
Notation "- a" := (tf.neg a) : tf_scope.
Notation "a <= b" := (tf.le a b) : tf_scope.

(* ================================================================== *)
(** ** Tensors *)
(* ================================================================== *)

(** A rank-1 tensor (or an [(n,1)] or [(1,n)] matrix) is the list of its
    entries.  Elementwise operations pair the entries up. *)
Section Tensors.
Context {A B C D : Type}.

Fixpoint zip2 (f : A -> B -> C) (la : list A) (lb : list B) : list C :=
  match la, lb with
  | a :: la', b :: lb' => f a b :: zip2 f la' lb'
  | _, _ => []
  end.

Fixpoint zip3 (f : A -> B -> C -> D)
         (la : list A) (lb : list B) (lc : list C) : list D :=
  match la, lb, lc with
  | a :: la', b :: lb', c :: lc' => f a b c :: zip3 f la' lb' lc'
  | _, _, _ => []
  end.

End Tensors.

(* ================================================================== *)
(** ** The numerical part of the script *)
(* ================================================================== *)

Section Numerics.
Context {T : tf.Ops}.
Local Open Scope tf_scope.

Definition zero : tf.F := tf.of_Z 0.
Definition one : tf.F := tf.of_Z 1.
Definition two : tf.F := tf.of_Z 2.
Definition five : tf.F := tf.of_Z 5.

(** [tf.reduce_sum] of a tensor. *)
Definition reduce_sum (l : list tf.F) : tf.F := fold_left tf.add l zero.

(** [b ** n] for a step count [n]. *)
Fixpoint pow (b : tf.F) (n : nat) : tf.F :=
  match n with
  | O => one
  | S n' => b * pow b n'
  end.

(** *** The model of [build_model] *)

(** [model.trainable_variables]: the kernel of the hidden layer (shape
    [(1,H)], kept as its only row, [w]), its bias ([u], shape [(H,)]) and
    the kernel of the output layer (shape [(H,1)], kept as its only
    column, [v]). *)
Record Params : Type := mkParams {
  w : list tf.F;
  u : list tf.F;
  v : list tf.F
}.

(** The hidden layer at one input: [sigmoid(x @ kernel + bias)]. *)
Definition hidden_layer (p : Params) (x : tf.F) : list tf.F :=
  zip2 (fun wj uj => tf.sigmoid (x * wj + uj)) (w p) (u p).

(** The output layer: [h @ kernel], linear, no bias. *)
Definition output_layer (p : Params) (h : list tf.F) : tf.F :=
  reduce_sum (zip2 tf.mul h (v p)).

(** [model(x)] at one row of the input. *)
Definition net (p : Params) (x : tf.F) : tf.F :=
  output_layer p (hidden_layer p x).

(** [N = model(x)] on the [(nt,1)] tensor of training points. *)
Definition model (p : Params) (x : list tf.F) : list tf.F := map (net p) x.

(** [y = x*N], the trial solution, at one point and on the tensor. *)
Definition trial (p : Params) (x : tf.F) : tf.F := x * net p x.

Definition trial_solution (x N : list tf.F) : list tf.F := zip2 tf.mul x N.

(** *** What the gradient tapes return

    A tape replays the recorded operations backwards.  For one hidden
    unit with weights [wj], [uj], [vj] at the point [x], write [s] for
    the unit's activation; the derivatives of the sigmoid are
    [s(1-s)] and [s(1-s)(1-2s)]. *)
Definition act (x wj uj : tf.F) : tf.F := tf.sigmoid (x * wj + uj).
Definition act' (s : tf.F) : tf.F := s * (one - s).
Definition act'' (s : tf.F) : tf.F := act' s * (one - two * s).

(** [tape.gradient(N, xtv)] of the final evaluation: the upstream
    gradient 1 flows through the output kernel, the sigmoid and the
    hidden kernel. *)
Definition dnet_dx (p : Params) (x : tf.F) : tf.F :=
  reduce_sum
    (zip3 (fun wj uj vj => (vj * act' (act x wj uj)) * wj) (w p) (u p) (v p)).

(** [dy_dx = tape1.gradient(y, x)]: the product [x*N] sends [N] to [x]
    directly and [x] into the network. *)
Definition dtrial_dx (p : Params) (x : tf.F) : tf.F :=
  net p x +
  reduce_sum
    (zip3 (fun wj uj vj => ((x * vj) * act' (act x wj uj)) * wj)
          (w p) (u p) (v p)).

Definition tape1_gradient (p : Params) (x : list tf.F) : list tf.F :=
  map (dtrial_dx p) x.

(** Line 133 of the script, at one point:
    [G = dy_dx + y/5 - tf.math.exp(-x/5)*tf.math.cos(x)]. *)
Definition G_at (x y dy_dx : tf.F) : tf.F :=
  dy_dx + y / five - tf.exp ((- x) / five) * tf.cos x.

Definition estimate (x y dy_dx : list tf.F) : list tf.F :=
  zip3 G_at x y dy_dx.

(** [G**2]. *)
Definition square (g : tf.F) : tf.F := g * g.

(** [L = tf.reduce_sum(G**2)]. *)
Definition loss_of (G : list tf.F) : tf.F := reduce_sum (map square G).

(** The residual and the loss as functions of the variables, which is
    what [tape2] has recorded. *)
Definition residual (p : Params) (x : tf.F) : tf.F :=
  G_at x (trial p x) (dtrial_dx p x).

Definition loss (p : Params) (x : list tf.F) : tf.F :=
  loss_of (map (residual p) x).

(** The derivative of [G] at one point with respect to a weight, from
    the derivative [dN] of [N] and the derivative [dD] of [dN/dx] with
    respect to that weight: [G = (N + x*dN/dx) + (x*N)/5 - ...]. *)
Definition dG (x dN dD : tf.F) : tf.F := dN + x * dD + (x * dN) / five.

Definition dG_dw (x wj uj vj : tf.F) : tf.F :=
  let s := act x wj uj in
  dG x ((vj * act' s) * x) (vj * act' s + ((vj * wj) * act'' s) * x).

Definition dG_du (x wj uj vj : tf.F) : tf.F :=
  let s := act x wj uj in
  dG x (vj * act' s) ((vj * wj) * act'' s).

Definition dG_dv (x wj uj vj : tf.F) : tf.F :=
  let s := act x wj uj in
  dG x s (wj * act' s).

(** The derivative of [L = sum G(x_i)^2] with respect to one weight. *)
Definition dL (p : Params) (x : list tf.F)
           (d : tf.F -> tf.F) : tf.F :=
  reduce_sum (map (fun xi => (two * residual p xi) * d xi) x).

(** [grad = tape2.gradient(L, model.trainable_variables)]: one tensor
    per variable, each of the shape of its variable. *)
Definition tape2_gradient (p : Params) (x : list tf.F) : Params :=
  {| w := zip3 (fun wj uj vj => dL p x (fun xi => dG_dw xi wj uj vj))
               (w p) (u p) (v p);
     u := zip3 (fun wj uj vj => dL p x (fun xi => dG_du xi wj uj vj))
               (w p) (u p) (v p);
     v := zip3 (fun wj uj vj => dL p x (fun xi => dG_dv xi wj uj vj))
               (w p) (u p) (v p) |}.

(** The row appended to [phist]:
    [np.hstack((variables[0][0], variables[1], variables[2][:, 0]))]. *)
Definition hstack (p : Params) : list tf.F := w p ++ u p ++ v p.

(** *** The optimizer: [tf.keras.optimizers.Adam(learning_rate)] *)

Definition beta_1 : tf.F := tf.of_Z 9 / tf.of_Z 10.
Definition beta_2 : tf.F := tf.of_Z 999 / tf.of_Z 1000.
Definition epsilon : tf.F := tf.of_Z 1 / tf.of_Z 10000000.

(** The state of the optimizer: the step counter and, for every
    variable, the two moment estimates (created, filled with zeros, by the
    first [apply_gradients]). *)
Record Adam : Type := mkAdam {
  iterations : nat;
  slots : option (Params * Params)
}.

Definition zeros_like (p : Params) : Params :=
  {| w := map (fun _ => zero) (w p);
     u := map (fun _ => zero) (u p);
     v := map (fun _ => zero) (v p) |}.

(** Modelled from the spec: the Adam update of one entry, section 4.4
    ([m = b1 m + (1-b1) g], [v = b2 v + (1-b2) g^2], bias correction by
    [1 - b^t], step [lr * m_hat / (sqrt v_hat + eps)]); the optimizer itself
    is TensorFlow's. *)
Definition adam_m (g m : tf.F) : tf.F := beta_1 * m + (one - beta_1) * g.

Definition adam_v (g vo : tf.F) : tf.F :=
  beta_2 * vo + (one - beta_2) * (g * g).

Definition adam_step (lr : tf.F) (t : nat) (m' v' th : tf.F) : tf.F :=
  th - (lr * (m' / (one - pow beta_1 t)))
       / (tf.sqrt (v' / (one - pow beta_2 t)) + epsilon).

(** The update of one variable tensor [th] with gradient [g] and moment
    estimates [m], [vo] at step [t]: new moments and new value. *)
Definition adam_tensor (lr : tf.F) (t : nat) (m vo g th : list tf.F)
  : list tf.F * list tf.F * list tf.F :=
  let m' := zip2 adam_m g m in
  let v' := zip2 adam_v g vo in
  (m', v', zip3 (adam_step lr t) m' v' th).

(** [optimizer.apply_gradients(zip(grad, model.trainable_variables))]:
    the step counter advances once, and each (gradient, variable) pair of
    the zip updates its own variable. *)
Definition apply_gradients (lr : tf.F) (o : Adam) (grad p : Params)
  : Adam * Params :=
  let t := S (iterations o) in
  let '(m, vo) := match slots o with
                  | Some s => s
                  | None => (zeros_like p, zeros_like p)
                  end in
  let '(mw, vw, w') := adam_tensor lr t (w m) (w vo) (w grad) (w p) in
  let '(mu, vu, u') := adam_tensor lr t (u m) (u vo) (u grad) (u p) in
  let '(mv, vv, v') := adam_tensor lr t (v m) (v vo) (v grad) (v p) in
  ({| iterations := t;
      slots := Some (mkParams mw mu mv, mkParams vw vu vv) |},
   mkParams w' u' v').

(** *** The Keras initializers

    [Dense] draws its kernel with [glorot_uniform] (uniform in
    [[-limit, limit]], [limit = sqrt(6 / (fan_in + fan_out))]) from the
    global generator and sets its bias to zeros. *)
Fixpoint random_uniform (n : nat) (lo hi : tf.F) (g : tf.generator)
  : list tf.F * tf.generator :=
  match n with
  | O => ([], g)
  | S n' => let '(a, g1) := tf.uniform g lo hi in
            let '(l, g2) := random_uniform n' lo hi g1 in
            (a :: l, g2)
  end.

Definition glorot_uniform (fan_in fan_out : nat) (g : tf.generator)
  : list tf.F * tf.generator :=
  let limit :=
    tf.sqrt (tf.of_Z 6 / tf.of_Z (Z.of_nat (fan_in + fan_out))) in
  random_uniform (fan_in * fan_out) (- limit) limit g.

(** Building the two layers for inputs of width 1: the hidden layer
    first (kernel [(1,H)], bias [(H,)]), then the output layer (kernel
    [(H,1)]). *)
Definition build (H : nat) (g : tf.generator) : Params * tf.generator :=
  let '(k1, g1) := glorot_uniform 1 H g in
  let b1 := repeat zero H in
  let '(k2, g2) := glorot_uniform H 1 g1 in
  (mkParams k1 b1 k2, g2).

End Numerics.

(* ================================================================== *)
(** ** The script as a program *)
(* ================================================================== *)

(** The phases of the training loop, in the vocabulary of the design:
    what a statement of the script does is logged when it runs. *)
Inductive Recorded : Type := LossScalar | ParamSnapshot.

Inductive Event : Type :=
| INIT
| FORWARD
| RESIDUAL
| LOSS
| BACKWARD
| UPDATE
| RECORD (what : Recorded)
| FINALIZE.

(** The exceptions the modelled statements can raise. *)
Inductive exn : Type :=
| ValueError (msg : string)
| NameError (name : string).

Inductive result (A : Type) : Type :=
| Ok (a : A)
| Raise (e : exn).

Arguments Ok {A} a.
Arguments Raise {A} e.

Section Script.
Context {T : tf.Ops}.
Local Open Scope tf_scope.
Local Open Scope string_scope.

(** What [np.savetxt] is given: a vector, or the table of [phist]. *)
Inductive ndarray : Type :=
| Vector (a : list tf.F)
| Table (a : list (list tf.F)).

(** Everything the script mutates: the global generator of TensorFlow,
    the variables of the model ([None] until the layers are built, which
    Keras does at the first call of the model), the optimizer, the two
    history lists, the files written into the output directory, and the
    log of phases. *)
Record World : Type := mkWorld {
  rng : tf.generator;
  trainable_variables : option Params;
  optimizer : Adam;
  losses : list tf.F;
  phist : list (list tf.F);
  files : list (string * ndarray);
  log : list Event
}.

(** A statement runs in a world, changes it, and returns or raises. *)
Definition M (A : Type) : Type := World -> World * result A.

Definition ret {A : Type} (a : A) : M A := fun s => (s, Ok a).

Definition bind {A B : Type} (c : M A) (k : A -> M B) : M B :=
  fun s => match c s with
           | (s', Ok a) => k a s'
           | (s', Raise e) => (s', Raise e)
           end.

Definition raise {A : Type} (e : exn) : M A := fun s => (s, Raise e).

Definition get : M World := fun s => (s, Ok s).

Definition modify (f : World -> World) : M unit := fun s => (f s, Ok tt).

End Script.

Declare Scope script_scope.
Delimit Scope script_scope with script.
Notation "x <- c ;; k" := (bind c (fun x => k))
  (at level 61, c at next level, right associativity) : script_scope.
Notation "c ;; k" := (bind c (fun _ => k))
  (at level 61, right associativity) : script_scope.

Section Main.
Context {T : tf.Ops}.
Local Open Scope tf_scope.
Local Open Scope string_scope.
Local Open Scope script_scope.

(** [for i in l: body(i)]. *)
Fixpoint for_each {A : Type} (l : list A) (body : A -> M unit) : M unit :=
  match l with
  | [] => ret tt
  | i :: l' => body i ;; for_each l' body
  end.

(** [range(n)]. *)
Definition range (n : nat) : list nat := seq 0 n.

Definition tick (e : Event) : M unit :=
  modify (fun s => mkWorld (rng s) (trainable_variables s) (optimizer s)
                           (losses s) (phist s) (files s) (log s ++ [e])).

(** [np.savetxt(os.path.join(output_dir, name), a)], in an output
    directory that can be written to: the write itself does not fail. *)
Definition savetxt (name : string) (a : ndarray) : M unit :=
  modify (fun s => mkWorld (rng s) (trainable_variables s) (optimizer s)
                           (losses s) (phist s) (files s ++ [(name, a)])
                           (log s)).

(** [tf.random.set_seed(seed)]. *)
Definition set_seed (seed : Z) : M unit :=
  modify (fun s => mkWorld (tf.set_seed seed) (trainable_variables s)
                           (optimizer s) (losses s) (phist s) (files s)
                           (log s)).

(** [xt.reshape((nt, 1))]: numpy refuses an array of another size. *)
Definition reshape (xt : list tf.F) (nt : nat) : M (list tf.F) :=
  if Nat.eqb (length xt) nt then ret xt
  else raise (ValueError "cannot reshape array").

(** The variables of the model at a call: the layers are built from the
    generator as it is at the first call, and kept afterwards. *)
Definition variables (H : nat) : M Params :=
  s <- get ;;
  match trainable_variables s with
  | Some p => ret p
  | None =>
      let '(p, g) := build H (rng s) in
      modify (fun s => mkWorld g (Some p) (optimizer s) (losses s)
                               (phist s) (files s) (log s)) ;;
      ret p
  end.

(** [losses.append(L.numpy())]. *)
Definition losses_append (L : tf.F) : M unit :=
  modify (fun s => mkWorld (rng s) (trainable_variables s) (optimizer s)
                           (losses s ++ [L]) (phist s) (files s) (log s)).

(** [phist.append(row)]. *)
Definition phist_append (row : list tf.F) : M unit :=
  modify (fun s => mkWorld (rng s) (trainable_variables s) (optimizer s)
                           (losses s) (phist s ++ [row]) (files s) (log s)).

(** [optimizer.apply_gradients(zip(grad, model.trainable_variables))]
    with the variables as they are in the world at that moment. *)
Definition optimizer_apply_gradients (lr : tf.F) (H : nat) (grad : Params)
  : M unit :=
  p <- variables H ;;
  s <- get ;;
  let '(o, p') := apply_gradients lr (optimizer s) grad p in
  modify (fun s => mkWorld (rng s) (Some p') o (losses s) (phist s)
                           (files s) (log s)).

(** The constants at the top of [__main__]. *)
Record Config : Type := mkConfig {
  H : nat;
  nt : nat;
  n_epochs : nat;
  learning_rate : tf.F;
  random_seed : Z
}.

(** What [ODE1IVP(eq_module)] has read from the equation module: the
    residual form [G(x, Y, dY_dx)] of the equation and, when the module
    defines them, the analytical solution and its derivative. *)
Record ODE1IVP : Type := mkODE1IVP {
  G : tf.F -> tf.F -> tf.F -> tf.F;
  Ya : option (tf.F -> tf.F);
  dYa_dx : option (tf.F -> tf.F)
}.

(** The body of the training loop, lines 116 to 154. *)
Definition epoch (c : Config) (x : list tf.F) (_ : nat) : M unit :=
  (* with tf.GradientTape() as tape2, tape1: N = model(x); y = x*N *)
  p <- variables (H c) ;;
  let N := model p x in
  let y := trial_solution x N in
  tick FORWARD ;;
  (* dy_dx = tape1.gradient(y, x); G = ... *)
  let dy_dx := tape1_gradient p x in
  let G := estimate x y dy_dx in
  tick RESIDUAL ;;
  (* L = tf.reduce_sum(G**2) *)
  let L := loss_of G in
  tick LOSS ;;
  (* losses.append(L.numpy()) *)
  losses_append L ;;
  tick (RECORD LossScalar) ;;
  (* grad = tape2.gradient(L, model.trainable_variables) *)
  let grad := tape2_gradient p x in
  tick BACKWARD ;;
  (* phist.append(np.hstack(...)) *)
  q <- variables (H c) ;;
  phist_append (hstack q) ;;
  tick (RECORD ParamSnapshot) ;;
  (* optimizer.apply_gradients(zip(grad, model.trainable_variables)) *)
  optimizer_apply_gradients (learning_rate c) (H c) grad ;;
  tick UPDATE.

(** [for epoch in range(n_epochs): ...]. *)
Definition train (c : Config) (x : list tf.F) : M unit :=
  for_each (range (n_epochs c)) (epoch c x).

(** A local name of [__main__] that is bound only inside an [if]:
    reading it while it is unbound raises [NameError]. *)
Definition local {A : Type} (name : string) (o : option A) : M A :=
  match o with
  | Some a => ret a
  | None => raise (NameError name)
  end.

(** Lines 166 to 191: the trained solution and its derivative at the
    training points, and the optional analytical values and errors. *)
Definition finalize (c : Config) (ode1ivp : ODE1IVP) (xt xtv : list tf.F)
  : M unit :=
  tick FINALIZE ;;
  p <- variables (H c) ;;
  let N := model p xtv in
  let dN_dx := map (dnet_dx p) xtv in
  let Yt := zip2 tf.mul xtv N in
  savetxt "Yt.dat" (Vector Yt) ;;
  let dYt_dx := zip2 tf.add (zip2 tf.mul xtv dN_dx) N in
  savetxt "dYt_dx.dat" (Vector dYt_dx) ;;
  (* if ode1ivp.Ya: Ya = ...; savetxt *)
  Ya_ <- match Ya ode1ivp with
         | Some f => let a := map f xt in
                     savetxt "Ya.dat" (Vector a) ;; ret (Some a)
         | None => ret None
         end ;;
  (* if ode1ivp.dYa_dx: dYa_dx = ...; savetxt *)
  dYa_dx_ <- match dYa_dx ode1ivp with
             | Some f => let a := map f xt in
                         savetxt "dYa_dx.dat" (Vector a) ;; ret (Some a)
             | None => ret None
             end ;;
  (* if ode1ivp.Ya: Y_err = Yt - Ya; savetxt *)
  match Ya ode1ivp with
  | Some _ => a <- local "Ya" Ya_ ;;
              savetxt "Y_err.dat" (Vector (zip2 tf.sub Yt a))
  | None => ret tt
  end ;;
  (* if ode1ivp.dYa_dx: dY_dx_err = dYt_dx - dYa_dx; savetxt *)
  match dYa_dx ode1ivp with
  | Some _ => a <- local "dYa_dx" dYa_dx_ ;;
              savetxt "dY_dx_err.dat" (Vector (zip2 tf.sub dYt_dx a))
  | None => ret tt
  end.

(** [__main__] from line 87 on, with the grid of [create_training_grid]
    and the equation object as the script obtains them from [nnde].  Two
    calls of [__main__] that can raise are not part of it:
    [create_output_directory()] at line 84, which is modelled on its own
    further down, and [ODE1IVP(eq_module)] at line 92, whose result is the
    argument [ode1ivp].  A run that ends normally here is a run of the
    script in which those two calls and the writes succeed. *)
Definition main (c : Config) (create_training_grid : nat -> list tf.F)
           (ode1ivp : ODE1IVP) : M unit :=
  let xt := create_training_grid (nt c) in
  savetxt "training_points.dat" (Vector xt) ;;
  xtv <- reshape xt (nt c) ;;
  (* model = build_model(H); losses = []; phist = [] *)
  set_seed (random_seed c) ;;
  (* optimizer = tf.keras.optimizers.Adam(learning_rate) *)
  tick INIT ;;
  train c xtv ;;
  s <- get ;;
  savetxt "phist.dat" (Table (phist s)) ;;
  finalize c ode1ivp xt xtv.

(** The world at the start of the process: whatever state the global
    generator is in, a model whose layers are not built, a fresh
    optimizer, empty histories, an empty output directory. *)
Definition start (g : tf.generator) : World :=
  {| rng := g;
     trainable_variables := None;
     optimizer := mkAdam 0 None;
     losses := [];
     phist := [];
     files := [];
     log := [] |}.

Definition run (c : Config) (grid : nat -> list tf.F) (ode1ivp : ODE1IVP)
           (g : tf.generator) : World * result unit :=
  main c grid ode1ivp (start g).

End Main.

(* ================================================================== *)
(** ** IEEE 754 binary32: the arithmetic of [dtype=tf.float32] *)
(* ================================================================== *)

Module Float32.

Definition prec : Z := 24.
Definition emax : Z := 128.

Definition float32 : Type := spec_float.

Definition of_Z (z : Z) : float32 := binary_normalize prec emax z 0 false.
Definition add : float32 -> float32 -> float32 := SFadd prec emax.
Definition sub : float32 -> float32 -> float32 := SFsub prec emax.
Definition mul : float32 -> float32 -> float32 := SFmul prec emax.
Definition div : float32 -> float32 -> float32 := SFdiv prec emax.
Definition neg : float32 -> float32 := SFopp.
Definition sqrt : float32 -> float32 := SFsqrt prec emax.

Definition infinity : float32 := S754_infinity false.
Definition nan : float32 := S754_nan.

(** [np.isfinite]. *)
Definition is_finite (x : float32) : bool :=
  match x with
  | S754_zero _ | S754_finite _ _ _ => true
  | S754_infinity _ | S754_nan => false
  end.

Definition le (x y : float32) : Prop := SFleb x y = true.

(** The elementary functions.  TensorFlow's kernels are polynomial
    approximations after a range reduction; these are of the same kind:
    Maclaurin sums evaluated in binary32 by Horner's rule, with IEEE's
    values at the special arguments. *)
Definition horner (cs : list float32) (r : float32) : float32 :=
  fold_right (fun c acc => add c (mul r acc)) (of_Z 0) cs.

Fixpoint factorial (n : nat) : Z :=
  match n with
  | O => 1
  | S n' => Z.of_nat n * factorial n'
  end.

Definition inv_fact (n : nat) : float32 :=
  div (of_Z 1) (of_Z (factorial n)).

(** The number of halvings that bring a finite [x] below 1/2. *)
Definition halvings (x : float32) : Z :=
  match x with
  | S754_finite _ m e => Z.max 0 (Zpos (digits2_pos m) + e + 1)
  | _ => 0
  end.

(** [exp x = (exp (x / 2^k))^(2^k)]; overflow to infinity above 89 and
    underflow to zero below -104. *)
Definition exp (x : float32) : float32 :=
  match x with
  | S754_nan => S754_nan
  | S754_infinity true => S754_zero false
  | S754_infinity false => x
  | S754_zero _ => of_Z 1
  | S754_finite _ _ _ =>
      if SFltb (of_Z 89) x then infinity
      else if SFltb x (of_Z (-104)) then S754_zero false
      else
        let k := halvings x in
        Nat.iter (Z.to_nat k) (fun p => mul p p)
                 (horner (map inv_fact (seq 0 10))
                         (SFldexp prec emax x (- k)))
  end.

(** [cos x] by its Maclaurin sum in [x^2], for the arguments the script
    gives it (the training points); not a number at the infinities. *)
Definition cos (x : float32) : float32 :=
  match x with
  | S754_nan | S754_infinity _ => S754_nan
  | _ =>
      horner (map (fun k => (if Nat.even k then inv_fact (2 * k)
                             else neg (inv_fact (2 * k)))) (seq 0 9))
             (mul x x)
  end.

Definition sigmoid (z : float32) : float32 :=
  div (of_Z 1) (add (of_Z 1) (exp (neg z))).

(** The global generator: a linear congruential generator, seeded by
    [set_seed]; a draw scales the state into [[lo, hi]]. *)
Definition generator : Type := Z.

Definition set_seed (seed : Z) : generator := seed.

Definition uniform (g : generator) (lo hi : float32)
  : float32 * generator :=
  let g' := ((1103515245 * g + 12345) mod 2147483648)%Z in
  (add lo (mul (sub hi lo) (div (of_Z g') (of_Z 2147483648))), g').

Definition ops : tf.Ops :=
  {| tf.F := float32;
     tf.of_Z := of_Z;
     tf.add := add;
     tf.sub := sub;
     tf.mul := mul;
     tf.div := div;
     tf.neg := neg;
     tf.sqrt := sqrt;
     tf.exp := exp;
     tf.cos := cos;
     tf.sigmoid := sigmoid;
     tf.is_finite := is_finite;
     tf.le := le;
     tf.generator := generator;
     tf.set_seed := set_seed;
     tf.uniform := uniform |}.

(** An evenly spaced grid on [[0, 1]], end points included, as the grid
    provider of [nnde] returns for one dimension. *)
Definition create_training_grid (n : nat) : list float32 :=
  map (fun i => div (of_Z (Z.of_nat i)) (of_Z (Z.of_nat n - 1))) (seq 0 n).

(** The constants of the script on a smaller scale, and a run with a
    learning rate far too large. *)
Definition demo : @Config ops :=
  @mkConfig ops 2 3 3 (div (of_Z 1) (of_Z 100)) 0.

Definition diverging : @Config ops :=
  @mkConfig ops 1 2 3 (of_Z (10 ^ 20)) 0.

(** The same small run with a learning rate that is not a number, and
    one with the learning rate 0. *)
Definition nan_rate : @Config ops :=
  @mkConfig ops 1 2 3 nan 0.

Definition still : @Config ops :=
  @mkConfig ops 2 3 3 (of_Z 0) 0.

(** Some values of the variables, for [H = 2]. *)
Definition sample : @Params ops :=
  @mkParams ops [of_Z 1; of_Z 2] [of_Z 3; of_Z 4] [of_Z 5; of_Z (-6)].

(** Finite values of the variables, for [H = 3], at which the output
    layer overflows: three units at [sigmoid 0 = 1/2] with the output
    weights [3 * 10^38]. *)
Definition overflowing : @Params ops :=
  @mkParams ops [of_Z 0; of_Z 0; of_Z 0] [of_Z 0; of_Z 0; of_Z 0]
            [of_Z (3 * 10 ^ 38); of_Z (3 * 10 ^ 38); of_Z (3 * 10 ^ 38)].

End Float32.

(* ================================================================== *)
(** ** The real numbers: the arithmetic the equations are stated in *)
(* ================================================================== *)

(** The reals have no rounding, no overflow and no not-a-number: what is
    proved over them is proved of the equations the script discretises,
    and is stated as holding in exact arithmetic; what is proved of a run
    of the script is proved for every [tf.Ops] or for binary32. *)

Module Exact.

Definition sigmoid (z : R) : R := (1 / (1 + Rtrigo_def.exp (- z)))%R.

Definition generator : Type := Z.

Definition set_seed (seed : Z) : generator := seed.

Definition uniform (g : generator) (lo hi : R) : R * generator :=
  let g' := ((1103515245 * g + 12345) mod 2147483648)%Z in
  ((lo + (hi - lo) * (IZR g' / IZR 2147483648))%R, g').

Definition ops : tf.Ops :=
  {| tf.F := R;
     tf.of_Z := IZR;
     tf.add := Rplus;
     tf.sub := Rminus;
     tf.mul := Rmult;
     tf.div := Rdiv;
     tf.neg := Ropp;
     tf.sqrt := R_sqrt.sqrt;
     tf.exp := Rtrigo_def.exp;
     tf.cos := Rtrigo_def.cos;
     tf.sigmoid := sigmoid;
     tf.is_finite := fun _ => true;
     tf.le := Rle;
     tf.generator := generator;
     tf.set_seed := set_seed;
     tf.uniform := uniform |}.

Definition create_training_grid (n : nat) : list R :=
  map (fun i => (IZR (Z.of_nat i) / IZR (Z.of_nat n - 1))%R) (seq 0 n).

Definition demo : @Config ops :=
  @mkConfig ops 2 3 3 (1 / 100)%R 0.

(** Some values of the variables, for [H = 2]. *)
Definition sample : @Params ops :=
  @mkParams ops [1; 2]%R [3; 4]%R [5; 6]%R.

End Exact.

(* ================================================================== *)
(** ** The training trajectory, outside the script *)
(* ================================================================== *)

Section Trajectory.
Context {T : tf.Ops}.

(** The variables the first call of the model creates in a run: drawn
    from the generator as [tf.random.set_seed(random_seed)] left it. *)
Definition initial_variables (c : Config) : Params :=
  fst (build (H c) (tf.set_seed (random_seed c))).

(** One Adam step on the gradient of the loss at the current
    variables. *)
Definition step (lr : tf.F) (x : list tf.F) (st : Params * Adam)
  : Params * Adam :=
  let '(o, p) := apply_gradients lr (snd st)
                                 (tape2_gradient (fst st) x) (fst st) in
  (p, o).

(** Variables and optimizer after [k] steps on the grid [x]. *)
Definition state_at (c : Config) (x : list tf.F) (k : nat)
  : Params * Adam :=
  Nat.iter k (step (learning_rate c) x)
           (initial_variables c, mkAdam 0 None).

Definition theta (c : Config) (x : list tf.F) (k : nat) : Params :=
  fst (state_at c x k).

(** The variables a call of the model sees in a world, and the world it
    leaves: the layers are built if they were not. *)
Definition weights (H : nat) (s : World) : Params :=
  match trainable_variables s with
  | Some p => p
  | None => fst (build H (rng s))
  end.

Definition built (H : nat) (s : World) : World :=
  match trainable_variables s with
  | Some p => s
  | None => mkWorld (snd (build H (rng s))) (Some (fst (build H (rng s))))
                    (optimizer s) (losses s) (phist s) (files s) (log s)
  end.

(** The world one pass of the loop body leaves. *)
Definition after_epoch (c : Config) (x : list tf.F) (s : World) : World :=
  let p := weights (H c) s in
  let a := apply_gradients (learning_rate c) (optimizer s)
                           (tape2_gradient p x) p in
  {| rng := rng (built (H c) s);
     trainable_variables := Some (snd a);
     optimizer := fst a;
     losses := losses s ++ [loss p x];
     phist := phist s ++ [hstack p];
     files := files s;
     log := log s ++ [FORWARD; RESIDUAL; LOSS; RECORD LossScalar; BACKWARD;
                      RECORD ParamSnapshot; UPDATE] |}.

(** The world [k] passes leave. *)
Fixpoint after_epochs (c : Config) (x : list tf.F) (k : nat) (s : World)
  : World :=
  match k with
  | O => s
  | S k' => after_epochs c x k' (after_epoch c x s)
  end.

(** The files the final evaluation writes, for trained variables [p]:
    the trained solution and derivative, then what the equation object
    allows. *)
Definition final_files (ode1ivp : ODE1IVP) (xt xtv : list tf.F)
           (p : Params) : list (string * ndarray) :=
  let N := model p xtv in
  let Yt := zip2 tf.mul xtv N in
  let dYt_dx := zip2 tf.add (zip2 tf.mul xtv (map (dnet_dx p) xtv)) N in
  [("Yt.dat"%string, Vector Yt); ("dYt_dx.dat"%string, Vector dYt_dx)]
  ++ match Ya ode1ivp with
     | Some f => [("Ya.dat"%string, Vector (map f xt))]
     | None => []
     end
  ++ match dYa_dx ode1ivp with
     | Some f => [("dYa_dx.dat"%string, Vector (map f xt))]
     | None => []
     end
  ++ match Ya ode1ivp with
     | Some f => [("Y_err.dat"%string, Vector (zip2 tf.sub Yt (map f xt)))]
     | None => []
     end
  ++ match dYa_dx ode1ivp with
     | Some f => [("dY_dx_err.dat"%string, Vector (zip2 tf.sub dYt_dx (map f xt)))]
     | None => []
     end.

(** The world the final evaluation leaves. *)
Definition after_finalize (c : Config) (ode1ivp : ODE1IVP)
           (xt xtv : list tf.F) (s : World) : World :=
  {| rng := rng (built (H c) s);
     trainable_variables := Some (weights (H c) s);
     optimizer := optimizer s;
     losses := losses s;
     phist := phist s;
     files := files s ++ final_files ode1ivp xt xtv (weights (H c) s);
     log := log s ++ [FINALIZE] |}.

(** The world when the loop is entered: the training points are saved,
    the generator is seeded, the layers are not built. *)
Definition seeded (c : Config) (xt : list tf.F) : World :=
  {| rng := tf.set_seed (random_seed c);
     trainable_variables := None;
     optimizer := mkAdam 0 None;
     losses := [];
     phist := [];
     files := [("training_points.dat"%string, Vector xt)];
     log := [INIT] |}.

(** The world when the loop is left. *)
Definition trained (c : Config) (xt : list tf.F) : World :=
  after_epochs c xt (n_epochs c) (seeded c xt).

(** The world at the end of [__main__]. *)
Definition finished (c : Config) (ode1ivp : ODE1IVP) (xt : list tf.F)
  : World :=
  let s := trained c xt in
  after_finalize c ode1ivp xt xt
    {| rng := rng s;
       trainable_variables := trainable_variables s;
       optimizer := optimizer s;
       losses := losses s;
       phist := phist s;
       files := files s ++ [("phist.dat"%string, Table (phist s))];
       log := log s |}.

(** The three tensors have [H] entries each. *)
Definition shaped (H : nat) (p : Params) : Prop :=
  length (w p) = H /\ length (u p) = H /\ length (v p) = H.

(** The moment estimates, once created, have the shapes of the
    variables. *)
Definition slots_shaped (H : nat) (o : Adam) : Prop :=
  match slots o with
  | Some (m, vo) => shaped H m /\ shaped H vo
  | None => True
  end.

(** The phases one pass of the loop body goes through. *)
Definition epoch_events : list Event :=
  [FORWARD; RESIDUAL; LOSS; RECORD LossScalar; BACKWARD;
   RECORD ParamSnapshot; UPDATE].

(** The order of the design document:
    FORWARD, RESIDUAL, LOSS, BACKWARD, UPDATE, RECORD. *)
Definition is_record (e : Event) : bool :=
  match e with
  | RECORD _ => true
  | _ => false
  end.

Definition record_after_update (l : list Event) : Prop :=
  exists before records,
    l = before ++ UPDATE :: records /\
    forallb is_record records = true /\
    forallb (fun e => negb (is_record e)) before = true.

(** The names of the files in the output directory. *)
Definition written (s : World) : list string := map fst (files s).

(** What is written under an [if ode1ivp.Ya:] or [if ode1ivp.dYa_dx:]. *)
Definition when_defined {A : Type} (o : option A) (names : list string)
  : list string :=
  match o with
  | Some _ => names
  | None => []
  end.

(** An equation object for another equation, [y' = -y], whose module
    defines no analytical solution. *)
Definition decay : ODE1IVP :=
  {| G := fun _ y dy_dx => tf.add dy_dx y;
     Ya := None;
     dYa_dx := None |}.

End Trajectory.

(* ================================================================== *)
(** ** The output directory *)
(* ================================================================== *)

(** The part of [os] and [os.path] that [create_output_directory] uses,
    for POSIX paths taken as they are written. *)
Module os.

(** What is found at a path: a regular file, a directory, or a symbolic
    link whose target does not exist.  Paths are taken as they are
    written, and the process is allowed to write where it asks to:
    permissions are not part of the model. *)
Inductive entry : Type := file | directory | broken_link.

Definition filesystem : Type := string -> option entry.

Inductive OSError : Type :=
| FileExistsError
| FileNotFoundError
| NotADirectoryError.

(** [s.rfind(c)]: the index of the last [c] in [s], or -1. *)
Fixpoint rfind_from (c : ascii) (s : list ascii) (i last : Z) : Z :=
  match s with
  | [] => last
  | a :: s' => rfind_from c s' (i + 1) (if Ascii.eqb a c then i else last)
  end.

Definition rfind (c : ascii) (s : list ascii) : Z := rfind_from c s 0 (-1).

(** [s[i:j]]. *)
Definition slice (s : list ascii) (i j : Z) : list ascii :=
  firstn (Z.to_nat (j - i)) (skipn (Z.to_nat i) s).

(** The loop of [splitext] that skips the leading dots of the file name:
    true when a character other than a dot comes before the last dot. *)
Fixpoint has_stem (name : list ascii) : bool :=
  match name with
  | [] => false
  | a :: name' => if Ascii.eqb a "." then has_stem name' else true
  end.

(** [os.path.splitext(p)]: the extension starts at the last dot of the
    last component, unless only dots precede it there. *)
Definition splitext (p : string) : string * string :=
  let s := list_ascii_of_string p in
  let sepIndex := rfind "/" s in
  let dotIndex := rfind "." s in
  if (sepIndex <? dotIndex)%Z && has_stem (slice s (sepIndex + 1) dotIndex)
  then (string_of_list_ascii (firstn (Z.to_nat dotIndex) s),
        string_of_list_ascii (skipn (Z.to_nat dotIndex) s))
  else (p, EmptyString).

(** [s.rstrip('/')]. *)
Fixpoint lstrip_sep (s : list ascii) : list ascii :=
  match s with
  | a :: s' => if Ascii.eqb a "/" then lstrip_sep s' else s
  | [] => []
  end.

Definition rstrip_sep (s : list ascii) : list ascii :=
  rev (lstrip_sep (rev s)).

(** [os.path.dirname(p)]. *)
Definition dirname (p : string) : string :=
  let s := list_ascii_of_string p in
  let head := firstn (Z.to_nat (rfind "/" s + 1)) s in
  string_of_list_ascii
    (if forallb (fun a => Ascii.eqb a "/") head then head
     else rstrip_sep head).

(** [os.path.exists(p)]: it follows symbolic links, so it is [False] on
    a link whose target does not exist. *)
Definition exists_ (fs : filesystem) (p : string) : bool :=
  match fs p with
  | Some file | Some directory => true
  | Some broken_link | None => false
  end.

(** [os.mkdir(p)]: the path must be new (a link of any kind counts as
    existing) and its parent a directory (the parent of a bare name is the
    current directory). *)
Definition mkdir (p : string) (fs : filesystem)
  : filesystem * (OSError + unit) :=
  match fs p with
  | Some _ => (fs, inl FileExistsError)
  | None =>
      let parent := dirname p in
      match (if String.eqb parent EmptyString then Some directory
             else fs parent) with
      | Some directory =>
          (fun q => if String.eqb q p then Some directory else fs q, inr tt)
      | Some file => (fs, inl NotADirectoryError)
      | Some broken_link | None => (fs, inl FileNotFoundError)
      end
  end.

End os.

(** [create_output_directory()], for the script at [__file__]. *)
Definition create_output_directory (__file__ : string) (fs : os.filesystem)
  : os.filesystem * (os.OSError + string) :=
  let '(path_noext, ext) := os.splitext __file__ in
  let output_dir := path_noext in
  if negb (os.exists_ fs output_dir) then
    match os.mkdir output_dir fs with
    | (fs', inr _) => (fs', inr output_dir)
    | (fs', inl e) => (fs', inl e)
    end
  else (fs, inr output_dir).

(* ================================================================== *)
(** * Properties *)
(* ================================================================== *)

(** ** Shapes of tensors *)

Section ZipFacts.
Context {A B C D : Type}.

Lemma length_zip2 (f : A -> B -> C) (la : list A) (lb : list B) :
  length (zip2 f la lb) = Nat.min (length la) (length lb).
Proof.
  revert lb; induction la as [|a la IH]; intros [|b lb]; simpl; auto.
Qed.

Lemma length_zip3 (f : A -> B -> C -> D)
      (la : list A) (lb : list B) (lc : list C) :
  length (zip3 f la lb lc)
  = Nat.min (length la) (Nat.min (length lb) (length lc)).
Proof.
  revert lb lc; induction la as [|a la IH]; intros [|b lb] [|c lc];
    simpl; auto.
Qed.

Lemma zip2_same_length (f : A -> B -> C) (la : list A) (lb : list B) n :
  length la = n -> length lb = n -> length (zip2 f la lb) = n.
Proof. intros; rewrite length_zip2; lia. Qed.

Lemma zip3_same_length (f : A -> B -> C -> D)
      (la : list A) (lb : list B) (lc : list C) n :
  length la = n -> length lb = n -> length lc = n ->
  length (zip3 f la lb lc) = n.
Proof. intros; rewrite length_zip3; lia. Qed.

End ZipFacts.

Create HintDb shapes.
#[local] Hint Resolve zip2_same_length zip3_same_length : shapes.

Section ShapeFacts.
Context {T : tf.Ops}.

Lemma length_random_uniform (n : nat) (lo hi : tf.F) (g : tf.generator) :
  length (fst (random_uniform n lo hi g)) = n.
Proof.
  revert g; induction n as [|n IH]; intros g; simpl; auto.
  destruct (tf.uniform g lo hi) as [a g1].
  specialize (IH g1).
  destruct (random_uniform n lo hi g1) as [l g2]; simpl in *; congruence.
Qed.

Lemma length_glorot_uniform (fan_in fan_out : nat) (g : tf.generator) :
  length (fst (glorot_uniform fan_in fan_out g)) = fan_in * fan_out.
Proof. apply length_random_uniform. Qed.

Lemma build_eq (H : nat) (g : tf.generator) :
  build H g
  = (mkParams (fst (glorot_uniform 1 H g)) (repeat zero H)
              (fst (glorot_uniform H 1 (snd (glorot_uniform 1 H g)))),
     snd (glorot_uniform H 1 (snd (glorot_uniform 1 H g)))).
Proof.
  unfold build.
  destruct (glorot_uniform 1 H g) as [k1 g1]; simpl.
  destruct (glorot_uniform H 1 g1) as [k2 g2]; reflexivity.
Qed.

Lemma build_shaped (H : nat) (g : tf.generator) :
  shaped H (fst (build H g)).
Proof.
  rewrite build_eq; unfold shaped; simpl.
  rewrite !length_glorot_uniform, repeat_length. lia.
Qed.

Lemma tape2_gradient_shaped (H : nat) (p : Params) (x : list tf.F) :
  shaped H p -> shaped H (tape2_gradient p x).
Proof.
  intros (Hw & Hu & Hv); unfold shaped, tape2_gradient; simpl.
  repeat split; auto with shapes.
Qed.

Lemma zeros_like_shaped (H : nat) (p : Params) :
  shaped H p -> shaped H (zeros_like p).
Proof.
  intros (Hw & Hu & Hv); unfold shaped, zeros_like; simpl.
  rewrite !length_map; auto.
Qed.

Lemma adam_tensor_lengths (lr : tf.F) (t n : nat) (m vo g th : list tf.F) :
  length m = n -> length vo = n -> length g = n -> length th = n ->
  let '(m', v', th') := adam_tensor lr t m vo g th in
  length m' = n /\ length v' = n /\ length th' = n.
Proof.
  intros; unfold adam_tensor; repeat split; auto 6 with shapes.
Qed.

Lemma apply_gradients_shaped (H : nat) (lr : tf.F) (o : Adam)
      (grad p : Params) :
  shaped H p -> shaped H grad -> slots_shaped H o ->
  shaped H (snd (apply_gradients lr o grad p)) /\
  slots_shaped H (fst (apply_gradients lr o grad p)).
Proof.
  intros Hp Hg Ho.
  assert (Hs : exists m vo,
             match slots o with
             | Some s => s
             | None => (zeros_like p, zeros_like p)
             end = (m, vo) /\ shaped H m /\ shaped H vo).
  { unfold slots_shaped in Ho. destruct (slots o) as [[m vo]|].
    - exists m, vo; tauto.
    - exists (zeros_like p), (zeros_like p);
        auto using zeros_like_shaped. }
  destruct Hs as (m & vo & Es & (Hmw & Hmu & Hmv) & (Hvw & Hvu & Hvv)).
  destruct Hp as (Hw & Hu & Hv); destruct Hg as (Hgw & Hgu & Hgv).
  unfold apply_gradients; rewrite Es.
  pose proof (@adam_tensor_lengths lr (S (iterations o)) H _ _ _ _
                                   Hmw Hvw Hgw Hw) as Lw.
  pose proof (@adam_tensor_lengths lr (S (iterations o)) H _ _ _ _
                                   Hmu Hvu Hgu Hu) as Lu.
  pose proof (@adam_tensor_lengths lr (S (iterations o)) H _ _ _ _
                                   Hmv Hvv Hgv Hv) as Lv.
  destruct (adam_tensor lr (S (iterations o)) (w m) (w vo) (w grad) (w p))
    as [[mw vw] w'].
  destruct (adam_tensor lr (S (iterations o)) (u m) (u vo) (u grad) (u p))
    as [[mu vu] u'].
  destruct (adam_tensor lr (S (iterations o)) (v m) (v vo) (v grad) (v p))
    as [[mv vv] v'].
  unfold slots_shaped; simpl; unfold shaped; simpl; tauto.
Qed.

Lemma step_shaped (H : nat) (lr : tf.F) (x : list tf.F)
      (st : Params * Adam) :
  shaped H (fst st) -> slots_shaped H (snd st) ->
  shaped H (fst (step lr x st)) /\ slots_shaped H (snd (step lr x st)).
Proof.
  intros Hp Ho; unfold step.
  pose proof (@apply_gradients_shaped H lr (snd st) _ _ Hp
                                      (tape2_gradient_shaped x Hp) Ho) as HA.
  destruct (apply_gradients lr (snd st) (tape2_gradient (fst st) x) (fst st))
    as [o p]; simpl in *; tauto.
Qed.

End ShapeFacts.

(** ** The statements of the script, evaluated *)

Section Evaluation.
Context {T : tf.Ops}.

Lemma bind_ok {A B : Type} (m : M A) (k : A -> M B) (s s' : World) (a : A) :
  m s = (s', Ok a) -> bind m k s = k a s'.
Proof. intros E; unfold bind; rewrite E; reflexivity. Qed.

Lemma bind_raise {A B : Type} (m : M A) (k : A -> M B) (s s' : World)
      (e : exn) :
  m s = (s', Raise e) -> bind m k s = (s', Raise e).
Proof. intros E; unfold bind; rewrite E; reflexivity. Qed.

Lemma variables_eq (H : nat) (s : World) :
  variables H s = (built H s, Ok (weights H s)).
Proof.
  unfold variables, built, weights, bind, get.
  destruct (trainable_variables s) as [p|]; [reflexivity|].
  destruct (build H (rng s)) as [p g]; reflexivity.
Qed.

Lemma built_variables (H : nat) (s : World) :
  trainable_variables (built H s) = Some (weights H s).
Proof.
  unfold built, weights.
  destruct (trainable_variables s) as [p|] eqn:E; simpl; auto.
Qed.

(** The tensors of line 133 are the residual of the trial solution. *)
Lemma estimate_eq (p : Params) (x : list tf.F) :
  estimate x (trial_solution x (model p x)) (tape1_gradient p x)
  = map (residual p) x.
Proof.
  unfold estimate, trial_solution, model, tape1_gradient.
  induction x as [|a x IH]; simpl; [reflexivity|].
  rewrite IH; reflexivity.
Qed.

Lemma modify_eq (f : World -> World) (s : World) :
  modify f s = (f s, Ok tt).
Proof. reflexivity. Qed.

End Evaluation.

(** Running one statement that only changes the world, and reading the
    fields of the world it leaves. *)
Ltac proj :=
  cbn beta iota delta
      [rng trainable_variables optimizer losses phist files log fst snd].
Ltac run_modify := erewrite bind_ok by apply modify_eq; proj.

Section EpochFacts.
Context {T : tf.Ops}.

Lemma built_fields (H : nat) (s : World) :
  optimizer (built H s) = optimizer s /\ losses (built H s) = losses s /\
  phist (built H s) = phist s /\ files (built H s) = files s /\
  log (built H s) = log s.
Proof.
  unfold built; destruct (trainable_variables s); simpl; auto.
Qed.

Lemma variables_built (H : nat) (s : World) (p : Params) :
  trainable_variables s = Some p -> variables H s = (s, Ok p).
Proof.
  intros E; rewrite variables_eq; unfold built, weights; rewrite E.
  reflexivity.
Qed.

Lemma optimizer_apply_gradients_eq (lr : tf.F) (H : nat) (grad p : Params)
      (s : World) :
  trainable_variables s = Some p ->
  optimizer_apply_gradients lr H grad s
  = ({| rng := rng s;
        trainable_variables :=
          Some (snd (apply_gradients lr (optimizer s) grad p));
        optimizer := fst (apply_gradients lr (optimizer s) grad p);
        losses := losses s;
        phist := phist s;
        files := files s;
        log := log s |}, Ok tt).
Proof.
  intros E; unfold optimizer_apply_gradients.
  erewrite bind_ok by (apply variables_built; exact E).
  unfold bind, get.
  destruct (apply_gradients lr (optimizer s) grad p) as [o p'].
  reflexivity.
Qed.

Lemma epoch_eq (c : Config) (x : list tf.F) (i : nat) (s : World) :
  epoch c x i s = (after_epoch c x s, Ok tt).
Proof.
  unfold epoch, tick, losses_append, phist_append.
  erewrite bind_ok by apply variables_eq.
  rewrite estimate_eq.
  unfold after_epoch.
  pose proof (built_variables (H c) s) as E.
  destruct (built_fields (H c) s) as (Eo & El & Ep & Ef & Eg).
  set (p := weights (H c) s) in *.
  set (s0 := built (H c) s) in *.
  do 6 run_modify.
  erewrite bind_ok by (apply variables_built; exact E).
  do 2 run_modify.
  erewrite bind_ok by (apply optimizer_apply_gradients_eq; exact E).
  rewrite modify_eq; proj.
  rewrite Eo, El, Ep, Ef, Eg.
  repeat rewrite <- app_assoc; reflexivity.
Qed.

Lemma for_each_epochs (c : Config) (x : list tf.F) (l : list nat)
      (s : World) :
  for_each l (epoch c x) s = (after_epochs c x (length l) s, Ok tt).
Proof.
  revert s; induction l as [|i l IH]; intros s; simpl; [reflexivity|].
  erewrite bind_ok by apply epoch_eq; apply IH.
Qed.

Lemma train_eq (c : Config) (x : list tf.F) (s : World) :
  train c x s = (after_epochs c x (n_epochs c) s, Ok tt).
Proof.
  unfold train, range; rewrite for_each_epochs, length_seq; reflexivity.
Qed.

End EpochFacts.

(** ** The whole run, evaluated *)

Section RunFacts.
Context {T : tf.Ops}.

Lemma ret_eq {A : Type} (a : A) (s : World) : ret a s = (s, Ok a).
Proof. reflexivity. Qed.

Lemma finalize_eq (c : Config) (ode1ivp : ODE1IVP) (xt xtv : list tf.F)
      (s : World) :
  finalize c ode1ivp xt xtv s = (after_finalize c ode1ivp xt xtv s, Ok tt).
Proof.
  unfold finalize, tick, savetxt, local.
  run_modify.
  erewrite bind_ok by apply variables_eq.
  unfold after_finalize, final_files, built, weights; proj.
  destruct (trainable_variables s) as [p|]; proj;
    destruct (Ya ode1ivp) as [fa|]; destruct (dYa_dx ode1ivp) as [fd|];
    repeat first [ run_modify
                 | erewrite bind_ok by apply ret_eq
                 | erewrite bind_ok
                     by (erewrite bind_ok by apply modify_eq; apply ret_eq);
                   proj ];
    rewrite ?modify_eq, ?ret_eq; proj;
    repeat rewrite <- app_assoc; reflexivity.
Qed.

Lemma get_eq (s : World) : get s = (s, Ok s).
Proof. reflexivity. Qed.

(** A run whose grid has [nt] points goes through to the end. *)
Lemma run_ok (c : Config) (grid : nat -> list tf.F) (ode1ivp : ODE1IVP)
      (g : tf.generator) :
  length (grid (nt c)) = nt c ->
  run c grid ode1ivp g = (finished c ode1ivp (grid (nt c)), Ok tt).
Proof.
  intros L; unfold run, main, start, savetxt, set_seed, tick, reshape.
  run_modify.
  rewrite L, Nat.eqb_refl.
  erewrite bind_ok by apply ret_eq.
  do 2 run_modify.
  erewrite bind_ok by apply train_eq.
  erewrite bind_ok by apply get_eq.
  run_modify.
  rewrite finalize_eq; reflexivity.
Qed.

(** Any other run stops at [reshape], before the loop. *)
Lemma run_raise (c : Config) (grid : nat -> list tf.F) (ode1ivp : ODE1IVP)
      (g : tf.generator) :
  length (grid (nt c)) <> nt c ->
  run c grid ode1ivp g
  = ({| rng := g;
        trainable_variables := None;
        optimizer := mkAdam 0 None;
        losses := [];
        phist := [];
        files := [("training_points.dat"%string, Vector (grid (nt c)))];
        log := [] |},
     Raise (ValueError "cannot reshape array")).
Proof.
  intros L; unfold run, main, start, savetxt, reshape.
  run_modify.
  apply Nat.eqb_neq in L; rewrite L.
  reflexivity.
Qed.

End RunFacts.

(** ** The trajectory of the variables through the loop *)

Section TrajectoryFacts.
Context {T : tf.Ops}.
Variable c : Config.
Variable x : list tf.F.

Let st (s : World) : Params * Adam := (weights (H c) s, optimizer s).
Let stp : Params * Adam -> Params * Adam := step (learning_rate c) x.

Lemma after_epoch_state (s : World) :
  st (after_epoch c x s) = stp (st s).
Proof.
  unfold st, stp, step, after_epoch, weights at 1; proj.
  destruct (apply_gradients (learning_rate c) (optimizer s)
              (tape2_gradient (weights (H c) s) x) (weights (H c) s));
    reflexivity.
Qed.

Lemma after_epochs_state (k : nat) (s : World) :
  st (after_epochs c x k s) = Nat.iter k stp (st s).
Proof.
  revert s; induction k as [|k IH]; intros s; [reflexivity|].
  cbn [after_epochs]; rewrite IH, after_epoch_state.
  symmetry; apply Nat.iter_succ_r.
Qed.

Lemma after_epochs_succ (k : nat) (s : World) :
  after_epochs c x (S k) s = after_epoch c x (after_epochs c x k s).
Proof.
  revert s; induction k as [|k IH]; intros s; [reflexivity|].
  cbn [after_epochs] in *; rewrite IH; reflexivity.
Qed.

Lemma after_epochs_losses (k : nat) (s : World) :
  losses (after_epochs c x k s)
  = losses s ++ map (fun i => loss (fst (Nat.iter i stp (st s))) x) (seq 0 k).
Proof.
  induction k as [|k IH]; [simpl; rewrite app_nil_r; reflexivity|].
  rewrite after_epochs_succ, seq_S, map_app, app_assoc, <- IH.
  unfold after_epoch at 1; proj.
  pose proof (after_epochs_state k s) as E; unfold st at 1 in E.
  apply (f_equal fst) in E; simpl in E; rewrite E; reflexivity.
Qed.

Lemma after_epochs_phist (k : nat) (s : World) :
  phist (after_epochs c x k s)
  = phist s ++ map (fun i => hstack (fst (Nat.iter i stp (st s)))) (seq 0 k).
Proof.
  induction k as [|k IH]; [simpl; rewrite app_nil_r; reflexivity|].
  rewrite after_epochs_succ, seq_S, map_app, app_assoc, <- IH.
  unfold after_epoch at 1; proj.
  pose proof (after_epochs_state k s) as E; unfold st at 1 in E.
  apply (f_equal fst) in E; simpl in E; rewrite E; reflexivity.
Qed.

Lemma after_epochs_log (k : nat) (s : World) :
  log (after_epochs c x k s) = log s ++ concat (repeat epoch_events k).
Proof.
  revert s; induction k as [|k IH]; intros s;
    [simpl; rewrite app_nil_r; reflexivity|].
  cbn [after_epochs repeat concat]; rewrite IH.
  unfold after_epoch; proj. rewrite <- app_assoc; reflexivity.
Qed.

Lemma after_epochs_files (k : nat) (s : World) :
  files (after_epochs c x k s) = files s.
Proof.
  revert s; induction k as [|k IH]; intros s; [reflexivity|].
  cbn [after_epochs]; rewrite IH; reflexivity.
Qed.

End TrajectoryFacts.

(** ** The run in terms of the trajectory *)

Section RunSummary.
Context {T : tf.Ops}.
Variable c : Config.
Variable x : list tf.F.

Lemma trained_state (k : nat) :
  (weights (H c) (after_epochs c x k (seeded c x)),
   optimizer (after_epochs c x k (seeded c x))) = state_at c x k.
Proof. apply (after_epochs_state c x k (seeded c x)). Qed.

Lemma trained_weights :
  weights (H c) (trained c x) = theta c x (n_epochs c).
Proof.
  unfold trained, theta; rewrite <- trained_state; reflexivity.
Qed.

Lemma trained_losses :
  losses (trained c x)
  = map (fun k => loss (theta c x k) x) (seq 0 (n_epochs c)).
Proof. apply (after_epochs_losses c x (n_epochs c) (seeded c x)). Qed.

Lemma trained_phist :
  phist (trained c x)
  = map (fun k => hstack (theta c x k)) (seq 0 (n_epochs c)).
Proof. apply (after_epochs_phist c x (n_epochs c) (seeded c x)). Qed.

Lemma trained_log :
  log (trained c x) = INIT :: concat (repeat epoch_events (n_epochs c)).
Proof. apply (after_epochs_log c x (n_epochs c) (seeded c x)). Qed.

Lemma trained_files :
  files (trained c x) = [("training_points.dat"%string, Vector x)].
Proof. apply (after_epochs_files c x (n_epochs c) (seeded c x)). Qed.

Lemma state_at_shaped (k : nat) :
  shaped (H c) (fst (state_at c x k)) /\
  slots_shaped (H c) (snd (state_at c x k)).
Proof.
  unfold state_at; induction k as [|k IH]; simpl.
  - split; [apply build_shaped | exact I].
  - apply step_shaped; tauto.
Qed.

Lemma theta_shaped (k : nat) : shaped (H c) (theta c x k).
Proof. apply state_at_shaped. Qed.

Lemma length_hstack (p : Params) :
  shaped (H c) p -> length (hstack p) = 3 * H c.
Proof.
  intros (Hw & Hu & Hv); unfold hstack; rewrite !length_app; lia.
Qed.

Lemma nth_error_map_seq {A : Type} (f : nat -> A) (n k : nat) :
  nth_error (map f (seq 0 n)) k = if Nat.ltb k n then Some (f k) else None.
Proof.
  destruct (Nat.ltb_spec k n) as [L|L].
  - rewrite nth_error_map, nth_error_seq.
    apply Nat.ltb_lt in L; rewrite L; reflexivity.
  - apply nth_error_None; rewrite length_map, length_seq; exact L.
Qed.

End RunSummary.

Section FinishedFacts.
Context {T : tf.Ops}.
Variable c : Config.
Variable ode1ivp : ODE1IVP.
Variable x : list tf.F.

Lemma finished_losses :
  losses (finished c ode1ivp x)
  = map (fun k => loss (theta c x k) x) (seq 0 (n_epochs c)).
Proof. unfold finished, after_finalize; proj; apply trained_losses. Qed.

Lemma finished_phist :
  phist (finished c ode1ivp x)
  = map (fun k => hstack (theta c x k)) (seq 0 (n_epochs c)).
Proof. unfold finished, after_finalize; proj; apply trained_phist. Qed.

Lemma finished_variables :
  trainable_variables (finished c ode1ivp x)
  = Some (theta c x (n_epochs c)).
Proof.
  unfold finished, after_finalize; proj.
  rewrite <- trained_weights; reflexivity.
Qed.

Lemma finished_log :
  log (finished c ode1ivp x)
  = INIT :: concat (repeat epoch_events (n_epochs c)) ++ [FINALIZE].
Proof.
  unfold finished, after_finalize; proj; rewrite trained_log; reflexivity.
Qed.

Lemma finished_files :
  files (finished c ode1ivp x)
  = [("training_points.dat"%string, Vector x);
     ("phist.dat"%string,
      Table (map (fun k => hstack (theta c x k)) (seq 0 (n_epochs c))))]
    ++ final_files ode1ivp x x (theta c x (n_epochs c)).
Proof.
  unfold finished, after_finalize; proj.
  rewrite trained_files, trained_phist.
  change (weights (H c) _) with (weights (H c) (trained c x)).
  rewrite trained_weights; reflexivity.
Qed.

End FinishedFacts.

Section RunTotal.
Context {T : tf.Ops}.

(** Every run: it ends normally exactly when the grid has [nt] points,
    and stops at [reshape] otherwise. *)
Lemma run_total (c : Config) (grid : nat -> list tf.F) (ode1ivp : ODE1IVP)
      (g : tf.generator) :
  run c grid ode1ivp g
  = if Nat.eqb (length (grid (nt c))) (nt c)
    then (finished c ode1ivp (grid (nt c)), Ok tt)
    else ({| rng := g;
             trainable_variables := None;
             optimizer := mkAdam 0 None;
             losses := [];
             phist := [];
             files := [("training_points.dat"%string,
                        Vector (grid (nt c)))];
             log := [] |},
          Raise (ValueError "cannot reshape array")).
Proof.
  destruct (Nat.eqb_spec (length (grid (nt c))) (nt c)) as [L|L].
  - apply run_ok; exact L.
  - apply run_raise; exact L.
Qed.

End RunTotal.

(** ** What the tapes return, in exact arithmetic

    The formulas of [dnet_dx], [dtrial_dx] and [tape2_gradient] are the
    derivatives reverse-mode differentiation computes.  Over the reals
    they are the derivatives of the functions the script differentiates:
    of [N] and [y = x*N] with respect to [x], and of the loss with
    respect to each weight. *)

Section Calculus.
Local Open Scope R_scope.
Local Unset Implicit Arguments.

Lemma d_plus (f g : R -> R) (x l1 l2 : R) :
  derivable_pt_lim f x l1 -> derivable_pt_lim g x l2 ->
  derivable_pt_lim (fun t => f t + g t) x (l1 + l2).
Proof. intros Hf Hg; exact (derivable_pt_lim_plus f g x l1 l2 Hf Hg). Qed.

Lemma d_mult (f g : R -> R) (x l1 l2 : R) :
  derivable_pt_lim f x l1 -> derivable_pt_lim g x l2 ->
  derivable_pt_lim (fun t => f t * g t) x (l1 * g x + f x * l2).
Proof. intros Hf Hg; exact (derivable_pt_lim_mult f g x l1 l2 Hf Hg). Qed.

Lemma d_const (a x : R) : derivable_pt_lim (fun _ => a) x 0.
Proof. exact (derivable_pt_lim_const a x). Qed.

Lemma d_id (x : R) : derivable_pt_lim (fun t => t) x 1.
Proof. exact (derivable_pt_lim_id x). Qed.

Lemma d_comp (f g : R -> R) (x l1 l2 : R) :
  derivable_pt_lim f x l1 -> derivable_pt_lim g (f x) l2 ->
  derivable_pt_lim (fun t => g (f t)) x (l2 * l1).
Proof. intros Hf Hg; exact (derivable_pt_lim_comp f g x l1 l2 Hf Hg). Qed.

Lemma d_eq (f : R -> R) (x l l' : R) :
  derivable_pt_lim f x l -> l = l' -> derivable_pt_lim f x l'.
Proof. intros Hf <-; exact Hf. Qed.

Lemma exp_plus_one_pos (z : R) : 0 < 1 + Rtrigo_def.exp (- z).
Proof. pose proof (exp_pos (- z)); lra. Qed.

(** The derivative of the sigmoid is [s (1 - s)]. *)
Lemma d_sigmoid (z : R) :
  derivable_pt_lim Exact.sigmoid z
                   (Exact.sigmoid z * (1 - Exact.sigmoid z)).
Proof.
  unfold Exact.sigmoid.
  pose proof (exp_plus_one_pos z) as P.
  assert (D : derivable_pt_lim (fun t => 1 + Rtrigo_def.exp (- t)) z
                               (0 + Rtrigo_def.exp (- z) * -1)).
  { apply d_plus; [apply d_const|].
    apply (d_comp (fun t => - t) Rtrigo_def.exp).
    - apply (d_eq _ _ _ _ (derivable_pt_lim_opp _ _ _ (d_id z))); reflexivity.
    - apply derivable_pt_lim_exp. }
  apply (d_eq _ _ _ _ (derivable_pt_lim_div _ _ _ _ _ (d_const 1 z) D
                                            (Rgt_not_eq _ _ P))).
  cbv beta; unfold Rsqr; field; lra.
Qed.


(** Along a differentiable argument. *)
Lemma d_sigmoid_along (z : R -> R) (t0 z' : R) :
  derivable_pt_lim z t0 z' ->
  derivable_pt_lim (fun t => Exact.sigmoid (z t)) t0
                   (act' (T := Exact.ops) (Exact.sigmoid (z t0)) * z').
Proof.
  intros Hz; apply (d_comp z Exact.sigmoid _ _ _ Hz), d_sigmoid.
Qed.

Lemma d_act'_along (z : R -> R) (t0 z' : R) :
  derivable_pt_lim z t0 z' ->
  derivable_pt_lim (fun t => act' (T := Exact.ops) (Exact.sigmoid (z t))) t0
                   (act'' (T := Exact.ops) (Exact.sigmoid (z t0)) * z').
Proof.
  intros Hz.
  pose proof (d_sigmoid_along z t0 z' Hz) as Hs.
  unfold act'', act', one, two in *; cbn in *.
  apply (d_eq _ _ _ _
           (d_mult _ _ _ _ _ Hs
                   (derivable_pt_lim_minus _ _ _ _ _ (d_const 1 t0) Hs))).
  cbv beta; unfold minus_fct; ring.
Qed.

(** Sums of tensors. *)
Lemma sum_from (l : list R) (a : R) :
  fold_left Rplus l a = a + fold_left Rplus l 0.
Proof.
  revert a; induction l as [|b l IH]; intros a; simpl; [ring|].
  rewrite (IH (a + b)), (IH (0 + b)); ring.
Qed.

Lemma sum_scal (x : R) (l : list R) :
  fold_left Rplus (map (Rmult x) l) 0 = x * fold_left Rplus l 0.
Proof.
  induction l as [|a l IH]; simpl; [ring|].
  rewrite (sum_from (map (Rmult x) l)), (sum_from l), IH; ring.
Qed.

Lemma sum_split (l1 l2 : list R) (a : R) :
  fold_left Rplus (l1 ++ a :: l2) 0
  = fold_left Rplus l1 0 + a + fold_left Rplus l2 0.
Proof.
  rewrite fold_left_app; simpl.
  rewrite (sum_from l2); reflexivity.
Qed.

Lemma d_sum {A : Type} (g : R -> A -> R) (g' : A -> R) (l : list A)
      (t0 : R) :
  (forall a, derivable_pt_lim (fun t => g t a) t0 (g' a)) ->
  derivable_pt_lim (fun t => fold_left Rplus (map (g t) l) 0) t0
                   (fold_left Rplus (map g' l) 0).
Proof.
  intros Hg; induction l as [|a l IH]; simpl.
  - apply d_const.
  - apply (derivable_pt_lim_ext
             (fun t => (0 + g t a) + fold_left Rplus (map (g t) l) 0)).
    + intros t; symmetry; apply sum_from.
    + rewrite (sum_from (map g' l) (0 + g' a)).
      apply d_plus; [|exact IH].
      apply d_plus; [apply d_const | apply Hg].
Qed.

End Calculus.

Section ZipSplit.
Context {A B C D E : Type}.

Lemma zip2_zip2 (f : A -> B -> C) (g : C -> D -> E)
      (la : list A) (lb : list B) (ld : list D) :
  zip2 g (zip2 f la lb) ld = zip3 (fun a b d => g (f a b) d) la lb ld.
Proof.
  revert lb ld; induction la as [|a la IH]; intros [|b lb] [|d ld];
    simpl; try reflexivity.
  rewrite IH; reflexivity.
Qed.

Lemma zip3_split (f : A -> B -> C -> D)
      (a1 a2 : list A) (b1 b2 : list B) (c1 c2 : list C)
      (a : A) (b : B) (c : C) :
  length a1 = length b1 -> length a1 = length c1 ->
  zip3 f (a1 ++ a :: a2) (b1 ++ b :: b2) (c1 ++ c :: c2)
  = zip3 f a1 b1 c1 ++ f a b c :: zip3 f a2 b2 c2.
Proof.
  revert b1 c1; induction a1 as [|a0 a1 IH]; intros [|b0 b1] [|c0 c1];
    simpl; intros Hb Hc; try discriminate; [reflexivity|].
  rewrite IH by congruence; reflexivity.
Qed.

Lemma zip3_ext (f g : A -> B -> C -> D)
      (la : list A) (lb : list B) (lc : list C) :
  (forall a b c, f a b c = g a b c) -> zip3 f la lb lc = zip3 g la lb lc.
Proof.
  intros Hfg; revert lb lc; induction la as [|a la IH];
    intros [|b lb] [|c lc]; simpl; try reflexivity.
  rewrite Hfg, IH; reflexivity.
Qed.

Lemma map_zip3 (f : A -> B -> C -> D) (h : D -> E)
      (la : list A) (lb : list B) (lc : list C) :
  map h (zip3 f la lb lc) = zip3 (fun a b c => h (f a b c)) la lb lc.
Proof.
  revert lb lc; induction la as [|a la IH]; intros [|b lb] [|c lc];
    simpl; try reflexivity.
  rewrite IH; reflexivity.
Qed.

End ZipSplit.

(** One weight of one hidden unit varies; everything else is fixed. *)
Section OneWeight.
Local Open Scope R_scope.
Local Unset Implicit Arguments.
Variables w1 w2 u1 u2 v1 v2 : list R.
Variables wt ut vt : R -> R.
Variable t0 : R.
Hypothesis len_u : length w1 = length u1.
Hypothesis len_v : length w1 = length v1.

Let pt (t : R) : @Params Exact.ops :=
  @mkParams Exact.ops (w1 ++ wt t :: w2) (u1 ++ ut t :: u2)
            (v1 ++ vt t :: v2).

Lemma d_unit_sum (f : R -> R -> R -> R) (l : R) :
  derivable_pt_lim (fun t => f (wt t) (ut t) (vt t)) t0 l ->
  derivable_pt_lim
    (fun t => fold_left Rplus (zip3 f (w (pt t)) (u (pt t)) (v (pt t))) 0)
    t0 l.
Proof.
  intros Hf; unfold pt; cbn [w u v].
  apply (derivable_pt_lim_ext
           (fun t => fold_left Rplus (zip3 f w1 u1 v1) 0
                     + f (wt t) (ut t) (vt t)
                     + fold_left Rplus (zip3 f w2 u2 v2) 0)).
  - intros t; rewrite (zip3_split f _ _ _ _ _ _ _ _ _ len_u len_v).
    symmetry; apply sum_split.
  - apply (d_eq _ _ _ _
             (d_plus _ _ _ _ _
                (d_plus _ _ _ _ _ (d_const _ t0) Hf) (d_const _ t0))).
    ring.
Qed.

Lemma net_sum (p : @Params Exact.ops) (x : R) :
  net p x
  = fold_left Rplus
      (zip3 (fun wj uj vj => Exact.sigmoid (x * wj + uj) * vj)
            (w p) (u p) (v p)) 0.
Proof.
  unfold net, output_layer, hidden_layer, reduce_sum.
  rewrite zip2_zip2; reflexivity.
Qed.

Lemma dnet_sum (p : @Params Exact.ops) (x : R) :
  dtrial_dx p x
  = net p x
    + x * fold_left Rplus
            (zip3 (fun wj uj vj =>
                     (vj * act' (T := Exact.ops)
                                (Exact.sigmoid (x * wj + uj))) * wj)
                  (w p) (u p) (v p)) 0.
Proof.
  unfold dtrial_dx, reduce_sum; cbn [tf.add Exact.ops].
  f_equal.
  rewrite <- sum_scal, map_zip3.
  f_equal; apply zip3_ext; intros a b c.
  unfold act; cbn; ring.
Qed.

(** The residual at the point [x] along the path, from the derivatives
    [dN] of the unit's term of [N] and [dD] of its term of [dN/dx]. *)
Lemma d_residual (x dN dD : R) :
  derivable_pt_lim
    (fun t => Exact.sigmoid (x * wt t + ut t) * vt t) t0 dN ->
  derivable_pt_lim
    (fun t => (vt t * act' (T := Exact.ops)
                            (Exact.sigmoid (x * wt t + ut t))) * wt t)
    t0 dD ->
  derivable_pt_lim (fun t => residual (pt t) x) t0
                   (dG (T := Exact.ops) x dN dD).
Proof.
  intros HN HD.
  pose proof (d_unit_sum
                (fun wj uj vj => Exact.sigmoid (x * wj + uj) * vj) _ HN)
    as SN.
  pose proof (d_unit_sum
                (fun wj uj vj =>
                   (vj * act' (T := Exact.ops)
                              (Exact.sigmoid (x * wj + uj))) * wj) _ HD)
    as SD.
  apply (derivable_pt_lim_ext
           (fun t =>
              (fold_left Rplus
                 (zip3 (fun wj uj vj => Exact.sigmoid (x * wj + uj) * vj)
                       (w (pt t)) (u (pt t)) (v (pt t))) 0
               + x * fold_left Rplus
                       (zip3 (fun wj uj vj =>
                                (vj * act' (T := Exact.ops)
                                           (Exact.sigmoid (x * wj + uj)))
                                * wj)
                             (w (pt t)) (u (pt t)) (v (pt t))) 0)
              + (x * fold_left Rplus
                       (zip3 (fun wj uj vj =>
                                Exact.sigmoid (x * wj + uj) * vj)
                             (w (pt t)) (u (pt t)) (v (pt t))) 0) * / 5
              + - (Rtrigo_def.exp (- x / 5) * Rtrigo_def.cos x))).
  - intros t; unfold residual, G_at, trial.
    rewrite dnet_sum, net_sum; reflexivity.
  - apply (d_eq _ _ _ _
             (d_plus _ _ _ _ _
                (d_plus _ _ _ _ _
                   (d_plus _ _ _ _ _ SN
                      (d_mult _ _ _ _ _ (d_const x t0) SD))
                   (d_mult _ _ _ _ _
                      (d_mult _ _ _ _ _ (d_const x t0) SN)
                      (d_const (/ 5) t0)))
                (d_const _ t0))).
    unfold dG; cbn; field.
Qed.


(** The loss on the grid [xs] along the path. *)
Lemma d_loss (xs : list R) (dN dD : R -> R) :
  (forall x, derivable_pt_lim
               (fun t => Exact.sigmoid (x * wt t + ut t) * vt t) t0 (dN x)) ->
  (forall x, derivable_pt_lim
               (fun t => (vt t * act' (T := Exact.ops)
                                       (Exact.sigmoid (x * wt t + ut t)))
                         * wt t) t0 (dD x)) ->
  derivable_pt_lim (fun t => loss (pt t) xs) t0
                   (dL (pt t0) xs
                       (fun x => dG (T := Exact.ops) x (dN x) (dD x))).
Proof.
  intros HN HD.
  unfold loss, loss_of, dL, reduce_sum.
  apply (derivable_pt_lim_ext
           (fun t => fold_left Rplus
                       (map (fun x => residual (pt t) x * residual (pt t) x)
                            xs) 0)).
  - intros t; rewrite map_map; reflexivity.
  - apply (d_sum (fun t x => residual (pt t) x * residual (pt t) x)).
    intros x.
    pose proof (d_residual x _ _ (HN x) (HD x)) as HG.
    apply (d_eq _ _ _ _ (d_mult _ _ _ _ _ HG HG)).
    unfold two; cbn; ring.
Qed.

End OneWeight.

(** The gradient tape is right: each entry of [tape2_gradient] is the
    derivative of the loss with respect to its weight, the other weights
    fixed.  [length w1] is the index of the hidden unit. *)
Section TapeIsGradient.
Local Open Scope R_scope.
Local Unset Implicit Arguments.
Variables w1 w2 u1 u2 v1 v2 : list R.
Variables wj uj vj : R.
Variable xs : list R.
Hypothesis len_u : length w1 = length u1.
Hypothesis len_v : length w1 = length v1.

Let p : @Params Exact.ops :=
  @mkParams Exact.ops (w1 ++ wj :: w2) (u1 ++ uj :: u2) (v1 ++ vj :: v2).

Lemma nth_zip3_split {A : Type} (f : R -> R -> R -> A) (d : A) :
  nth (length w1) (zip3 f (w p) (u p) (v p)) d = f wj uj vj.
Proof.
  unfold p; cbn [w u v].
  rewrite (zip3_split f _ _ _ _ _ _ _ _ _ len_u len_v).
  assert (L : length (zip3 f w1 u1 v1) = length w1)
    by (rewrite length_zip3; lia).
  rewrite <- L; apply nth_middle.
Qed.

Lemma d_affine (a b t : R) :
  derivable_pt_lim (fun s => a * s + b) t a.
Proof.
  apply (d_eq _ _ _ _
           (d_plus _ _ _ _ _ (d_mult _ _ _ _ _ (d_const a t) (d_id t))
                   (d_const b t))).
  ring.
Qed.

Lemma d_shift (c t : R) : derivable_pt_lim (fun s => c + s) t 1.
Proof.
  apply (d_eq _ _ _ _ (d_plus _ _ _ _ _ (d_const c t) (d_id t))); ring.
Qed.

Theorem tape2_gradient_w :
  derivable_pt_lim
    (fun t => loss (@mkParams Exact.ops (w1 ++ t :: w2) (u p) (v p)) xs)
    wj (nth (length w1) (w (tape2_gradient p xs)) 0).
Proof.
  unfold tape2_gradient; cbn [w].
  rewrite nth_zip3_split.
  apply (d_loss w1 w2 u1 u2 v1 v2 (fun t => t) (fun _ => uj) (fun _ => vj)
                wj len_u len_v xs).
  - intros x.
    apply (d_eq _ _ _ _
             (d_mult _ _ _ _ _
                (d_sigmoid_along (fun t => x * t + uj) wj x
                                 (d_affine x uj wj))
                (d_const vj wj))).
    unfold act; cbn; ring.
  - intros x.
    apply (d_eq _ _ _ _
             (d_mult _ _ _ _ _
                (d_mult _ _ _ _ _ (d_const vj wj)
                   (d_act'_along (fun t => x * t + uj) wj x
                                 (d_affine x uj wj)))
                (d_id wj))).
    unfold act; cbn; ring.
Qed.


Theorem tape2_gradient_u :
  derivable_pt_lim
    (fun t => loss (@mkParams Exact.ops (w p) (u1 ++ t :: u2) (v p)) xs)
    uj (nth (length w1) (u (tape2_gradient p xs)) 0).
Proof.
  unfold tape2_gradient; cbn [u].
  rewrite nth_zip3_split.
  apply (d_loss w1 w2 u1 u2 v1 v2 (fun _ => wj) (fun t => t) (fun _ => vj)
                uj len_u len_v xs).
  - intros x.
    apply (d_eq _ _ _ _
             (d_mult _ _ _ _ _
                (d_sigmoid_along (fun t => x * wj + t) uj 1
                                 (d_shift (x * wj) uj))
                (d_const vj uj))).
    unfold act; cbn; ring.
  - intros x.
    apply (d_eq _ _ _ _
             (d_mult _ _ _ _ _
                (d_mult _ _ _ _ _ (d_const vj uj)
                   (d_act'_along (fun t => x * wj + t) uj 1
                                 (d_shift (x * wj) uj)))
                (d_const wj uj))).
    unfold act; cbn; ring.
Qed.

Theorem tape2_gradient_v :
  derivable_pt_lim
    (fun t => loss (@mkParams Exact.ops (w p) (u p) (v1 ++ t :: v2)) xs)
    vj (nth (length w1) (v (tape2_gradient p xs)) 0).
Proof.
  unfold tape2_gradient; cbn [v].
  rewrite nth_zip3_split.
  apply (d_loss w1 w2 u1 u2 v1 v2 (fun _ => wj) (fun _ => uj) (fun t => t)
                vj len_u len_v xs).
  - intros x.
    apply (d_eq _ _ _ _
             (d_mult _ _ _ _ _ (d_const (Exact.sigmoid (x * wj + uj)) vj)
                     (d_id vj))).
    unfold act; cbn; ring.
  - intros x.
    apply (d_eq _ _ _ _
             (d_mult _ _ _ _ _
                (d_mult _ _ _ _ _ (d_id vj)
                   (d_const (act' (T := Exact.ops)
                                  (Exact.sigmoid (x * wj + uj))) vj))
                (d_const wj vj))).
    unfold act; cbn; ring.
Qed.

End TapeIsGradient.

(** The first tape is right: [dtrial_dx] is the derivative of the trial
    solution with respect to [x], and [dnet_dx] that of the network. *)
Section TapeIsDerivative.
Local Open Scope R_scope.
Local Unset Implicit Arguments.

Lemma d_units (f : R -> R -> R -> R -> R) (f' : R -> R -> R -> R)
      (ws us vs : list R) (x0 : R) :
  (forall a b c, derivable_pt_lim (fun x => f x a b c) x0 (f' a b c)) ->
  derivable_pt_lim (fun x => fold_left Rplus (zip3 (f x) ws us vs) 0) x0
                   (fold_left Rplus (zip3 f' ws us vs) 0).
Proof.
  intros Hf.
  pose (units := zip3 (fun a b c => (a, b, c)) ws us vs).
  assert (E : forall (h : R -> R -> R -> R),
             zip3 h ws us vs
             = map (fun t => h (fst (fst t)) (snd (fst t)) (snd t)) units).
  { intros h; unfold units; rewrite map_zip3; reflexivity. }
  rewrite (E f').
  apply (derivable_pt_lim_ext
           (fun x => fold_left Rplus
                       (map (fun t => f x (fst (fst t)) (snd (fst t)) (snd t))
                            units) 0)).
  - intros x; rewrite (E (f x)); reflexivity.
  - apply (d_sum (fun x t => f x (fst (fst t)) (snd (fst t)) (snd t))).
    intros t; apply Hf.
Qed.

Lemma dnet_dx_sum (p : @Params Exact.ops) (x : R) :
  dnet_dx p x
  = fold_left Rplus
      (zip3 (fun wj uj vj =>
               (vj * act' (T := Exact.ops) (Exact.sigmoid (x * wj + uj)))
               * wj)
            (w p) (u p) (v p)) 0.
Proof. reflexivity. Qed.

Lemma d_line (a b t : R) : derivable_pt_lim (fun s => s * a + b) t a.
Proof.
  apply (d_eq _ _ _ _
           (d_plus _ _ _ _ _ (d_mult _ _ _ _ _ (d_id t) (d_const a t))
                   (d_const b t))).
  ring.
Qed.

Theorem dnet_dx_is_derivative (p : @Params Exact.ops) (x : R) :
  derivable_pt_lim (net p) x (dnet_dx p x).
Proof.
  apply (derivable_pt_lim_ext
           (fun x => fold_left Rplus
                       (zip3 (fun wj uj vj =>
                                Exact.sigmoid (x * wj + uj) * vj)
                             (w p) (u p) (v p)) 0)).
  - intros z; symmetry; apply net_sum.
  - rewrite dnet_dx_sum.
    apply (d_units (fun x wj uj vj => Exact.sigmoid (x * wj + uj) * vj)).
    intros a b c.
    apply (d_eq _ _ _ _
             (d_mult _ _ _ _ _
                (d_sigmoid_along (fun t => t * a + b) x a (d_line a b x))
                (d_const c x))).
    ring.
Qed.

Theorem dtrial_dx_is_derivative (p : @Params Exact.ops) (x : R) :
  derivable_pt_lim (trial p) x (dtrial_dx p x).
Proof.
  unfold trial.
  apply (d_eq _ _ _ _
           (d_mult _ _ _ _ _ (d_id x) (dnet_dx_is_derivative p x))).
  rewrite dnet_sum, dnet_dx_sum; ring.
Qed.

End TapeIsDerivative.

(** ** How a run ended *)

Section Outcome.
Context {T : tf.Ops}.
Variable c : Config.
Variable grid : nat -> list tf.F.
Variable ode1ivp : ODE1IVP.
Variable g : tf.generator.

(** A run that ends normally went past [reshape]. *)
Lemma run_ended_normally :
  snd (run c grid ode1ivp g) = Ok tt -> length (grid (nt c)) = nt c.
Proof.
  rewrite run_total.
  destruct (Nat.eqb_spec (length (grid (nt c))) (nt c)) as [E|N];
    [intros _; exact E | cbn [snd]; discriminate].
Qed.

(** A run that recorded a loss went past [reshape]. *)
Lemma run_recorded (k : nat) (L : tf.F) :
  nth_error (losses (fst (run c grid ode1ivp g))) k = Some L ->
  length (grid (nt c)) = nt c.
Proof.
  rewrite run_total.
  destruct (Nat.eqb_spec (length (grid (nt c))) (nt c)) as [E|N];
    [intros _; exact E | cbn [fst losses]].
  destruct k; discriminate.
Qed.

End Outcome.

(** ** Signs in binary32 *)

Section Binary32.
Local Open Scope tf_scope.

Let F32 : Type := @tf.F Float32.ops.

(** Not a number, or not negative. *)
Let nn (a : F32) : Prop :=
  match a with
  | S754_nan | S754_zero _ => True
  | S754_infinity s | S754_finite s _ _ => s = false
  end.

Lemma round_not_negative (m e : Z) (l : location) :
  nn (binary_round_aux Float32.prec Float32.emax false m e l).
Proof.
  unfold binary_round_aux.
  destruct (shr_fexp Float32.prec Float32.emax m e l) as [r1 e1].
  destruct (shr_fexp Float32.prec Float32.emax
              (round_nearest_even (shr_m r1) (loc_of_shr_record r1))
              e1 loc_Exact) as [r2 e2].
  destruct (shr_m r2); [exact I | | exact I].
  destruct (e2 <=? Float32.emax - Float32.prec)%Z; reflexivity.
Qed.

Lemma square_not_negative (a : F32) : nn (a * a).
Proof.
  destruct a as [s| s | |s m e]; cbn [tf.mul Float32.ops];
    unfold Float32.mul; cbn [SFmul]; try exact I.
  - destruct s; reflexivity.
  - destruct s; apply round_not_negative.
Qed.

Lemma add_not_negative (a b : F32) : nn a -> nn b -> nn (a + b).
Proof.
  cbn [tf.add Float32.ops]; unfold Float32.add.
  destruct a as [sa|sa| |sa ma ea], b as [sb|sb| |sb mb eb];
    cbn [SFadd nn]; intros Ha Hb; subst; try exact I; try reflexivity.
  - destruct sa, sb; exact I.
  - cbn [cond_Zopp Z.add binary_normalize].
    unfold binary_round.
    destruct (shl_align _ _ _) as [mz ez].
    apply round_not_negative.
Qed.

Lemma sum_not_negative (l : list F32) (a : F32) :
  nn a -> Forall nn l -> nn (fold_left tf.add l a).
Proof.
  intros Ha Hl; revert a Ha.
  induction Hl as [|b l Hb Hl IH]; intros a Ha; cbn [fold_left];
    [exact Ha|].
  apply IH, add_not_negative; assumption.
Qed.

Lemma not_negative_le (a : F32) :
  nn a -> a = Float32.nan \/ zero <= a.
Proof.
  destruct a as [s|s| |s m e]; cbn [nn]; intros Ha; subst;
    first [left; reflexivity | right; reflexivity].
Qed.

(** A sum of squares in binary32 is not a number or is not negative. *)
Lemma sum_of_squares_sign (G : list F32) :
  let L := fold_left tf.add (map (fun Gi => Gi * Gi) G) zero in
  L = Float32.nan \/ zero <= L.
Proof.
  intros L; apply not_negative_le, sum_not_negative; [exact I|].
  apply Forall_forall; intros b Hb.
  apply in_map_iff in Hb; destruct Hb as (a & <- & _).
  apply square_not_negative.
Qed.

(** [0 * N] in binary32. *)
Lemma zero_times (N : F32) :
  SFeqb (zero * N) (@zero Float32.ops) = tf.is_finite N
  /\ (tf.is_finite N = false -> zero * N = Float32.nan).
Proof.
  destruct N as [s|s| |s m e]; split; try reflexivity;
    intros Hf; discriminate Hf.
Qed.

End Binary32.

(* ================================================================== *)
(** * The claims *)
(* ================================================================== *)

(** C5. In every pass of the loop the optimizer is applied once: the step
    counter advances by one, and each of the three variable tensors (hidden
    kernel, hidden bias, output kernel) becomes one Adam update of its own
    value with its own gradient.  The three gradients are the components
    of one [tape2.gradient] at the variables [p] the pass started with, so
    no update sees a value another update has already changed. *)
Theorem adam_once_per_tensor_from_one_snapshot :
  forall (T : tf.Ops) (c : Config) (x : list tf.F) (i : nat) (s : World),
    let p := weights (H c) s in
    let grad := tape2_gradient p x in
    let t := S (iterations (optimizer s)) in
    let m := match slots (optimizer s) with
             | Some sl => fst sl
             | None => zeros_like p
             end in
    let vo := match slots (optimizer s) with
              | Some sl => snd sl
              | None => zeros_like p
              end in
    let lr := learning_rate c in
    let s' := fst (epoch c x i s) in
    trainable_variables s'
    = Some {| w := snd (adam_tensor lr t (w m) (w vo) (w grad) (w p));
              u := snd (adam_tensor lr t (u m) (u vo) (u grad) (u p));
              v := snd (adam_tensor lr t (v m) (v vo) (v grad) (v p)) |}
    /\ iterations (optimizer s') = S (iterations (optimizer s)).
Proof.
  intros T c x i s p grad t m vo lr s'.
  subst s'; rewrite epoch_eq; unfold after_epoch; proj.
  fold p; fold grad; fold lr.
  unfold apply_gradients.
  assert (E : match slots (optimizer s) with
              | Some sl => sl
              | None => (zeros_like p, zeros_like p)
              end = (m, vo)).
  { subst m vo; destruct (slots (optimizer s)) as [[a b]|]; reflexivity. }
  rewrite E; fold t.
  destruct (adam_tensor lr t (w m) (w vo) (w grad) (w p)) as [[mw vw] w'].
  destruct (adam_tensor lr t (u m) (u vo) (u grad) (u p)) as [[mu vu] u'].
  destruct (adam_tensor lr t (v m) (v vo) (v grad) (v p)) as [[mv vv] v'].
  split; reflexivity.
Qed.

(** C7. The loss history, the parameter history and the final variables
    of a run are a function of the configuration (and of the grid it
    fixes): they are the same whatever state the global generator was in
    when the process started and whatever the equation object carries. *)
Theorem run_reproducible :
  forall (T : tf.Ops) (c : Config) (grid : nat -> list tf.F)
         (ode1 ode2 : ODE1IVP) (g1 g2 : tf.generator),
    let s1 := fst (run c grid ode1 g1) in
    let s2 := fst (run c grid ode2 g2) in
    losses s1 = losses s2 /\
    phist s1 = phist s2 /\
    trainable_variables s1 = trainable_variables s2.
Proof.
  intros T c grid ode1 ode2 g1 g2; cbv zeta.
  rewrite !run_total.
  destruct (Nat.eqb (length (grid (nt c))) (nt c)); cbn [fst].
  - rewrite !finished_losses, !finished_phist, !finished_variables.
    repeat split.
  - repeat split.
Qed.

(** C1, as the script has it.  The residual of a pass is computed by the
    expression written in the loop itself,
    [dy_dx + y/5 - exp(-x/5)*cos(x)], on the current trial solution and
    its derivative; the loss appended is the sum of its squares.  The
    equation object is not consulted by the loop: the histories, the
    variables and the optimizer of a run are the same whatever that
    object carries. *)
Theorem residual_is_written_in_the_loop :
  forall (T : tf.Ops) (c : Config) (x : list tf.F) (i : nat) (s : World)
         (grid : nat -> list tf.F) (ode1 ode2 : ODE1IVP) (g : tf.generator),
    let p := weights (H c) s in
    let y := trial_solution x (model p x) in
    let dy_dx := tape1_gradient p x in
    let G := zip3 (fun xi yi di =>
                     (di + yi / five
                      - tf.exp ((- xi) / five) * tf.cos xi)%tf)
                  x y dy_dx in
    let s1 := fst (run c grid ode1 g) in
    let s2 := fst (run c grid ode2 g) in
    losses (fst (epoch c x i s)) = losses s ++ [reduce_sum (map square G)]
    /\ losses s1 = losses s2
    /\ phist s1 = phist s2
    /\ trainable_variables s1 = trainable_variables s2
    /\ optimizer s1 = optimizer s2.
Proof.
  intros T c x i s grid ode1 ode2 g p y dy_dx G s1 s2.
  split.
  - rewrite epoch_eq; unfold after_epoch; proj.
    fold p. unfold loss, loss_of.
    rewrite <- estimate_eq; reflexivity.
  - subst s1 s2; rewrite !run_total.
    destruct (Nat.eqb (length (grid (nt c))) (nt c)); cbn [fst].
    + rewrite !finished_losses, !finished_phist, !finished_variables.
      repeat split.
    + repeat split.
Qed.

(** C3, as the script has it.  A pass of the loop goes through
    FORWARD, RESIDUAL, LOSS, the RECORD of the loss, BACKWARD, the RECORD
    of the parameter snapshot, and UPDATE last: both records precede the
    update of their pass, so the row appended is the vector of the
    variables the pass started with, and the variables the pass leaves
    are their update.  A whole run is INIT, that sequence [n_epochs]
    times, FINALIZE. *)
Theorem epoch_phase_order :
  forall (T : tf.Ops) (c : Config) (x : list tf.F) (i : nat) (s : World)
         (grid : nat -> list tf.F) (ode1ivp : ODE1IVP) (g : tf.generator),
    let p := weights (H c) s in
    let s' := fst (epoch c x i s) in
    log s'
    = log s ++ [FORWARD; RESIDUAL; LOSS; RECORD LossScalar; BACKWARD;
                RECORD ParamSnapshot; UPDATE]
    /\ phist s' = phist s ++ [hstack p]
    /\ trainable_variables s'
       = Some (snd (apply_gradients (learning_rate c) (optimizer s)
                                    (tape2_gradient p x) p))
    /\ log (fst (run c grid ode1ivp g))
       = if Nat.eqb (length (grid (nt c))) (nt c)
         then INIT :: concat (repeat epoch_events (n_epochs c)) ++ [FINALIZE]
         else [].
Proof.
  intros T c x i s grid ode1ivp g p s'.
  subst s'; rewrite epoch_eq.
  split; [reflexivity|]; split; [reflexivity|]; split; [reflexivity|].
  rewrite run_total.
  destruct (Nat.eqb (length (grid (nt c))) (nt c)); cbn [fst].
  - apply finished_log.
  - reflexivity.
Qed.

(** C9. The final evaluation never raises.  Besides the trained solution
    and derivative it writes [Ya.dat] and [Y_err.dat] exactly when the
    equation object has an analytical solution, and [dYa_dx.dat] and
    [dY_dx_err.dat] exactly when it has an analytical derivative; with
    neither, none of the four. *)
Theorem optional_outputs_gated :
  forall (T : tf.Ops) (c : Config) (ode1ivp : ODE1IVP)
         (xt xtv : list tf.F) (s : World),
    let r := finalize c ode1ivp xt xtv s in
    snd r = Ok tt
    /\ written (fst r)
       = written s
         ++ ["Yt.dat"; "dYt_dx.dat"]%string
         ++ when_defined (Ya ode1ivp) ["Ya.dat"%string]
         ++ when_defined (dYa_dx ode1ivp) ["dYa_dx.dat"%string]
         ++ when_defined (Ya ode1ivp) ["Y_err.dat"%string]
         ++ when_defined (dYa_dx ode1ivp) ["dY_dx_err.dat"%string].
Proof.
  intros T c ode1ivp xt xtv s r; subst r.
  rewrite finalize_eq; cbn [fst snd]; split; [reflexivity|].
  unfold written, after_finalize, final_files; proj.
  rewrite map_app.
  destruct (Ya ode1ivp), (dYa_dx ode1ivp); reflexivity.
Qed.

Lemma trial_solution_eq {T : tf.Ops} (p : Params) (x : list tf.F) :
  trial_solution x (model p x) = map (trial p) x.
Proof.
  unfold trial_solution, model.
  induction x as [|a x IH]; simpl; [reflexivity|].
  rewrite IH; reflexivity.
Qed.

(** C6.  At the end of a run that ended normally, [phist] and [losses]
    have [n_epochs] entries each, and row [k] of [phist] is
    [w | u | v] of the variables [theta k] that pass [k] started with:
    their hidden kernel, hidden bias and output kernel, [H] entries each,
    [3*H] in all. *)
Theorem history_lengths :
  forall (T : tf.Ops) (c : Config) (grid : nat -> list tf.F)
         (ode1ivp : ODE1IVP) (g : tf.generator),
    snd (run c grid ode1ivp g) = Ok tt ->
    let x := grid (nt c) in
    let s := fst (run c grid ode1ivp g) in
    length (phist s) = n_epochs c
    /\ length (losses s) = n_epochs c
    /\ forall k : nat,
         k < n_epochs c ->
         let p := theta c x k in
         nth_error (phist s) k = Some (w p ++ u p ++ v p)
         /\ length (w p) = H c
         /\ length (u p) = H c
         /\ length (v p) = H c
         /\ length (w p ++ u p ++ v p) = 3 * H c.
Proof.
  intros T c grid ode1ivp g Hok x s.
  apply run_ended_normally in Hok as L.
  subst s; rewrite run_ok by exact L; cbn [fst]; fold x.
  rewrite finished_phist, finished_losses, !length_map, length_seq.
  split; [reflexivity|]; split; [reflexivity|].
  intros k Hk; set (p := theta c x k).
  rewrite nth_error_map_seq.
  apply Nat.ltb_lt in Hk; rewrite Hk.
  pose proof (theta_shaped c x k) as S.
  split; [reflexivity|].
  destruct S as (Sw & Su & Sv); fold p in Sw, Su, Sv.
  repeat split; try assumption.
  rewrite !length_app; lia.
Qed.

Lemma history_lengths_witness :
  let c := Float32.demo in
  let x : list (@tf.F Float32.ops) := Float32.create_training_grid 3 in
  let s := fst (run c Float32.create_training_grid decay 0%Z) in
  length (phist s) = 3
  /\ length (losses s) = 3
  /\ forall k : nat,
       k < 3 ->
       let p := theta c x k in
       nth_error (phist s) k = Some (w p ++ u p ++ v p)
       /\ length (w p) = 2
       /\ length (u p) = 2
       /\ length (v p) = 2
       /\ length (w p ++ u p ++ v p) = 3 * 2.
Proof.
  apply (@history_lengths Float32.ops Float32.demo
           Float32.create_training_grid decay 0%Z).
  vm_compute; reflexivity.
Defined.

(** The variables after one more pass. *)
Lemma theta_succ {T : tf.Ops} (c : Config) (x : list tf.F) (j : nat) :
  theta c x (S j)
  = snd (apply_gradients (learning_rate c) (snd (state_at c x j))
                         (tape2_gradient (theta c x j) x) (theta c x j)).
Proof.
  change (theta c x (S j))
    with (fst (step (learning_rate c) x (state_at c x j))).
  unfold step, theta.
  destruct (apply_gradients (learning_rate c) (snd (state_at c x j))
              (tape2_gradient (fst (state_at c x j)) x)
              (fst (state_at c x j))) as [o' p'].
  reflexivity.
Qed.

(** C10, as the script has it.  In a run that ended normally, row [k]
    of [phist] is [w | u | v] of the variables [theta k] that entry [k]
    of [losses] was computed from, both taken before the update of pass
    [k].  The history has [n_epochs] rows and no more.  The variables the
    run ends with are one Adam step, on the gradient at the variables of
    the last row, past that row; they are the ones the final evaluation
    uses. *)
Theorem history_is_one_step_behind :
  forall (T : tf.Ops) (c : Config) (grid : nat -> list tf.F)
         (ode1ivp : ODE1IVP) (g : tf.generator) (k : nat),
    snd (run c grid ode1ivp g) = Ok tt ->
    k < n_epochs c ->
    let x := grid (nt c) in
    let s := fst (run c grid ode1ivp g) in
    let n := n_epochs c in
    let p := theta c x k in
    let last := theta c x (n - 1) in
    let o := snd (state_at c x (n - 1)) in
    let final := snd (apply_gradients (learning_rate c) o
                                      (tape2_gradient last x) last) in
    nth_error (phist s) k = Some (w p ++ u p ++ v p)
    /\ nth_error (losses s) k
       = Some (reduce_sum
                 (map (fun xi => tf.mul (residual p xi) (residual p xi)) x))
    /\ length (phist s) = n
    /\ nth_error (phist s) (n - 1) = Some (w last ++ u last ++ v last)
    /\ trainable_variables s = Some final
    /\ In ("Yt.dat"%string, Vector (zip2 tf.mul x (map (net final) x)))
          (files s).
Proof.
  intros T c grid ode1ivp g k Hok Hk x s n p last o final.
  apply run_ended_normally in Hok as L.
  subst s; rewrite run_ok by exact L; cbn [fst]; fold x.
  rewrite finished_phist, finished_losses, finished_variables, finished_files.
  rewrite !nth_error_map_seq, length_map, length_seq; fold n.
  assert (K : Nat.ltb k n = true) by (apply Nat.ltb_lt; exact Hk).
  assert (K1 : Nat.ltb (n - 1) n = true) by (apply Nat.ltb_lt; lia).
  rewrite K, K1.
  assert (E : theta c x n = final).
  { subst final o last.
    replace n with (S (n - 1)) at 1 by lia.
    apply theta_succ. }
  split; [reflexivity|].
  split; [unfold loss, loss_of; rewrite map_map; reflexivity|].
  split; [reflexivity|].
  split; [reflexivity|].
  rewrite E.
  split; [reflexivity|].
  unfold final_files; cbn [app]; right; right; left; reflexivity.
Qed.

Lemma history_is_one_step_behind_witness :
  let c := Float32.demo in
  let x : list (@tf.F Float32.ops) := Float32.create_training_grid 3 in
  let s := fst (run c Float32.create_training_grid decay 0%Z) in
  let p := theta c x 1 in
  let last := theta c x (3 - 1) in
  let o := snd (state_at c x (3 - 1)) in
  let final := snd (apply_gradients (learning_rate c) o
                                    (tape2_gradient last x) last) in
  nth_error (phist s) 1 = Some (w p ++ u p ++ v p)
  /\ nth_error (losses s) 1
     = Some (reduce_sum
               (map (fun xi => tf.mul (residual p xi) (residual p xi)) x))
  /\ length (phist s) = 3
  /\ nth_error (phist s) (3 - 1) = Some (w last ++ u last ++ v last)
  /\ trainable_variables s = Some final
  /\ In ("Yt.dat"%string, Vector (zip2 tf.mul x (map (net final) x)))
        (files s).
Proof.
  apply (@history_is_one_step_behind Float32.ops Float32.demo
           Float32.create_training_grid decay 0%Z 1).
  - vm_compute; reflexivity.
  - simpl; lia.
Defined.

(** C10, as stated, fails: the final variables can appear in the
    history.  With the learning rate 0 an Adam step changes nothing, and
    the vector of the variables the run ends with is row 2, the last row,
    of [phist] (and every other row). *)
Lemma final_variables_appear_in_history :
  let c := Float32.still in
  let x : list (@tf.F Float32.ops) := Float32.create_training_grid 3 in
  let s := fst (run c Float32.create_training_grid decay 0%Z) in
  exists p : @Params Float32.ops,
    trainable_variables s = Some p
    /\ nth_error (phist s) 2 = Some (w p ++ u p ++ v p)
    /\ Forall (eq (w p ++ u p ++ v p)) (phist s).
Proof.
  intros c x s.
  exists (theta c x 3).
  subst s; rewrite run_ok by reflexivity; cbn [fst]; fold x.
  rewrite finished_variables, finished_phist.
  match goal with
  | |- context [map ?f ?l] =>
      assert (E : map f l = repeat (hstack (theta c x 3)) 3)
        by (vm_compute; reflexivity);
      rewrite E
  end.
  unfold hstack; cbn [repeat nth_error].
  split; [reflexivity|].
  split; [reflexivity|].
  do 3 (apply Forall_cons; [reflexivity|]); apply Forall_nil.
Qed.

(** C4, as the script has it.  The loop has no test on the loss.  From
    any world, whatever the losses recorded so far or computed next, a pass
    does not raise and appends one loss, and the loop does not raise and
    appends [n_epochs] of them.  A run that ended normally has recorded
    [n_epochs] losses and [n_epochs] rows, has written the whole
    parameter history to [phist.dat], and has gone through no phase
    other than INIT, the passes and FINALIZE. *)
Theorem run_outcome_ignores_losses :
  forall (T : tf.Ops) (c : Config) (x : list tf.F) (i : nat) (s : World)
         (grid : nat -> list tf.F) (ode1ivp : ODE1IVP) (g : tf.generator),
    let r := run c grid ode1ivp g in
    (snd (epoch c x i s) = Ok tt
     /\ length (losses (fst (epoch c x i s))) = S (length (losses s)))
    /\ (snd (train c x s) = Ok tt
        /\ length (losses (fst (train c x s)))
           = length (losses s) + n_epochs c)
    /\ (snd r = Ok tt ->
        length (losses (fst r)) = n_epochs c
        /\ length (phist (fst r)) = n_epochs c
        /\ In ("phist.dat"%string, Table (phist (fst r))) (files (fst r))
        /\ log (fst r)
           = INIT :: concat (repeat epoch_events (n_epochs c)) ++ [FINALIZE]).
Proof.
  intros T c x i s grid ode1ivp g r.
  split.
  { rewrite epoch_eq; cbn [fst snd]; split; [reflexivity|].
    unfold after_epoch; cbn [losses]; rewrite length_app; cbn [length]; lia. }
  split.
  { rewrite train_eq; cbn [fst snd].
    rewrite after_epochs_losses, length_app, length_map, length_seq.
    split; reflexivity. }
  intros Hok; apply run_ended_normally in Hok as L.
  subst r; rewrite run_ok by exact L; cbn [fst].
  rewrite finished_losses, finished_files, finished_phist, finished_log.
  rewrite !length_map, length_seq.
  repeat split. right; left; reflexivity.
Qed.

Lemma run_outcome_ignores_losses_witness :
  let c := Float32.nan_rate in
  let x : list (@tf.F Float32.ops) := Float32.create_training_grid 2 in
  let s := start (T := Float32.ops) 0%Z in
  let r := run c Float32.create_training_grid decay 0%Z in
  (snd (epoch c x 0 s) = Ok tt
   /\ length (losses (fst (epoch c x 0 s))) = S (length (losses s)))
  /\ (snd (train c x s) = Ok tt
      /\ length (losses (fst (train c x s))) = length (losses s) + 3)
  /\ snd r = Ok tt
  /\ length (losses (fst r)) = 3
  /\ length (phist (fst r)) = 3
  /\ In ("phist.dat"%string, Table (phist (fst r))) (files (fst r))
  /\ log (fst r) = INIT :: concat (repeat epoch_events 3) ++ [FINALIZE].
Proof.
  intros c x s r.
  destruct (@run_outcome_ignores_losses Float32.ops Float32.nan_rate
              (Float32.create_training_grid 2) 0
              (start (T := Float32.ops) 0%Z)
              Float32.create_training_grid decay 0%Z) as (A & B & C).
  assert (Hok : snd r = Ok tt) by (vm_compute; reflexivity).
  split; [exact A|]; split; [exact B|]; split; [exact Hok|].
  apply C; exact Hok.
Defined.

(** C4, as stated, fails: with a learning rate that is not a number the
    first update leaves variables that are not numbers, so the loss of the
    second pass is not a number.  Nothing stops the run: the third pass
    runs and records another such loss, the run ends normally, and the
    history, with its rows of not-a-numbers, is written to
    [phist.dat]. *)
Lemma diverged_run_completes :
  let r := run Float32.nan_rate Float32.create_training_grid decay 0%Z in
  nth_error (losses (fst r)) 1 = Some Float32.nan
  /\ nth_error (losses (fst r)) 2 = Some Float32.nan
  /\ length (losses (fst r)) = 3
  /\ snd r = Ok tt
  /\ nth_error (phist (fst r)) 2
     = Some [Float32.nan; Float32.nan; Float32.nan]
  /\ In ("phist.dat"%string, Table (phist (fst r))) (files (fst r))
  /\ log (fst r) = INIT :: concat (repeat epoch_events 3) ++ [FINALIZE].
Proof.
  intros r.
  split; [vm_compute; reflexivity|].
  split; [vm_compute; reflexivity|].
  split; [vm_compute; reflexivity|].
  split; [vm_compute; reflexivity|].
  split; [vm_compute; reflexivity|].
  subst r; rewrite run_ok by reflexivity; cbn [fst].
  rewrite finished_files, finished_phist, finished_log.
  split; [right; left; reflexivity | reflexivity].
Qed.

(** C2, as the script has it.  In binary32 the trial solution at a
    training point 0 is the product [0 * N(0)], in the tensor [y] of a
    pass and in [Yt] of the final evaluation.  It compares equal to 0
    exactly when the network output [N(0)] is finite, and is not a number
    when [N(0)] is infinite or not a number. *)
Theorem trial_solution_vanishes_at_zero :
  forall (p : @Params Float32.ops) (x : list (@tf.F Float32.ops))
         (i : nat),
    nth_error x i = Some zero ->
    let N0 := net p zero in
    exists y0 : @tf.F Float32.ops,
      y0 = tf.mul zero N0
      /\ trial p zero = y0
      /\ nth_error (trial_solution x (model p x)) i = Some y0
      /\ nth_error (zip2 tf.mul x (model p x)) i = Some y0
      /\ SFeqb y0 (@zero Float32.ops) = tf.is_finite N0
      /\ (tf.is_finite N0 = false -> y0 = Float32.nan).
Proof.
  intros p x i Hi N0.
  exists (tf.mul zero N0).
  split; [reflexivity|]; split; [reflexivity|].
  change (zip2 tf.mul x (model p x)) with (trial_solution x (model p x)).
  rewrite trial_solution_eq.
  assert (E : nth_error (map (trial p) x) i = Some (tf.mul zero N0))
    by (apply map_nth_error with (f := trial p) in Hi; exact Hi).
  split; [exact E|]; split; [exact E|].
  apply zero_times.
Qed.

Lemma trial_solution_vanishes_at_zero_witness :
  let p := Float32.sample in
  let x : list (@tf.F Float32.ops) := Float32.create_training_grid 3 in
  let N0 := net p zero in
  exists y0 : @tf.F Float32.ops,
    y0 = tf.mul zero N0
    /\ trial p zero = y0
    /\ nth_error (trial_solution x (model p x)) 0 = Some y0
    /\ nth_error (zip2 tf.mul x (model p x)) 0 = Some y0
    /\ SFeqb y0 (@zero Float32.ops) = tf.is_finite N0
    /\ (tf.is_finite N0 = false -> y0 = Float32.nan).
Proof.
  apply (@trial_solution_vanishes_at_zero Float32.sample
           (Float32.create_training_grid 3) 0).
  vm_compute; reflexivity.
Defined.

(** C2, as stated, fails: [Y(0) = 0] does not hold for every value of
    the variables.  At finite variables for which the output layer
    overflows, [N(0)] is infinite and [Y(0) = 0 * N(0)] is not a number;
    and so it is at the variables the second pass of a run with a
    learning rate that is not a number starts with. *)
Lemma trial_solution_not_zero_at_zero :
  let p := Float32.overflowing in
  let x : list (@tf.F Float32.ops) := Float32.create_training_grid 2 in
  let q := theta Float32.nan_rate x 1 in
  map tf.is_finite (w p ++ u p ++ v p) = repeat true 9
  /\ net p zero = Float32.infinity
  /\ trial p zero = Float32.nan
  /\ SFeqb (trial p zero) (@zero Float32.ops) = false
  /\ nth_error x 0 = Some zero
  /\ nth_error (trial_solution x (model q x)) 0 = Some Float32.nan.
Proof.
  repeat split; vm_compute; reflexivity.
Qed.

(** C8, as the script has it.  Every loss a run records, at index [k]
    say, is the sum over the [nt] training points of the square [G*G] of
    the residual [G = dy_dx + y/5 - exp(-x/5)*cos(x)], with [y = x*N] and
    [dy_dx] taken at the variables [theta k] of that pass.  In binary32 it
    is not a number or is not negative. *)
Theorem loss_is_sum_of_squared_residuals :
  forall (c : @Config Float32.ops)
         (grid : nat -> list (@tf.F Float32.ops))
         (ode1ivp : @ODE1IVP Float32.ops) (g : @tf.generator Float32.ops)
         (k : nat) (L : @tf.F Float32.ops),
    nth_error (losses (fst (run c grid ode1ivp g))) k = Some L ->
    let x := grid (nt c) in
    let p := theta c x k in
    let G := map (fun xi =>
                    (dtrial_dx p xi + (xi * net p xi) / five
                     - tf.exp ((- xi) / five) * tf.cos xi)%tf) x in
    L = fold_left tf.add (map (fun Gi => tf.mul Gi Gi) G) zero
    /\ length G = nt c
    /\ k < n_epochs c
    /\ (L = Float32.nan \/ tf.le zero L).
Proof.
  intros c grid ode1ivp g k L HL x p G.
  apply run_recorded in HL as Len.
  rewrite run_ok in HL by exact Len; cbn [fst] in HL.
  rewrite finished_losses, nth_error_map_seq in HL.
  destruct (Nat.ltb_spec k (n_epochs c)) as [Hk|Hk]; [|discriminate HL].
  injection HL as <-.
  assert (E : loss (theta c (grid (nt c)) k) (grid (nt c))
              = fold_left tf.add (map (fun Gi => tf.mul Gi Gi) G) zero).
  { unfold loss, loss_of, reduce_sum; reflexivity. }
  rewrite E.
  split; [reflexivity|]; split; [|split].
  - subst G x; rewrite length_map; exact Len.
  - exact Hk.
  - apply sum_of_squares_sign.
Qed.

Lemma loss_is_sum_of_squared_residuals_witness :
  let c := Float32.demo in
  let x : list (@tf.F Float32.ops) := Float32.create_training_grid 3 in
  let p := theta c x 1 in
  let L := loss p x in
  let G := map (fun xi =>
                  (dtrial_dx p xi + (xi * net p xi) / five
                   - tf.exp ((- xi) / five) * tf.cos xi)%tf) x in
  L = fold_left tf.add (map (fun Gi => tf.mul Gi Gi) G) zero
  /\ length G = 3
  /\ 1 < 3
  /\ (L = Float32.nan \/ tf.le zero L).
Proof.
  apply (@loss_is_sum_of_squared_residuals Float32.demo
           Float32.create_training_grid decay 0%Z 1
           (loss (theta Float32.demo (Float32.create_training_grid 3) 1)
                 (Float32.create_training_grid 3))).
  vm_compute; reflexivity.
Defined.

(** C8, as stated, fails: a recorded loss need not be [>= 0].  In the
    run with a learning rate that is not a number, the loss recorded by
    the second pass is not a number, and [0 <= L] does not hold of it. *)
Lemma recorded_loss_not_nonnegative :
  let r := run Float32.nan_rate Float32.create_training_grid decay 0%Z in
  exists L : @tf.F Float32.ops,
    nth_error (losses (fst r)) 1 = Some L
    /\ L = Float32.nan
    /\ ~ tf.le zero L.
Proof.
  intros r; exists Float32.nan.
  split; [vm_compute; reflexivity|].
  split; [reflexivity|].
  intros C; vm_compute in C; discriminate C.
Qed.

(** ** Other runs in binary32 *)

(** C1, as stated, fails: the residual of the loop is not the value of
    the equation object's [G].  With the equation object of [y' = -y] the
    loop still computes the residual of lagaris02 at the initial variables
    of the demo. *)
Lemma loop_residual_is_not_the_oracle_residual :
  let p := initial_variables Float32.demo in
  let x : list (@tf.F Float32.ops) := Float32.create_training_grid 3 in
  let y := trial_solution x (model p x) in
  let dy_dx := tape1_gradient p x in
  ~ (forall ode1ivp : @ODE1IVP Float32.ops,
        estimate x y dy_dx = zip3 (G ode1ivp) x y dy_dx).
Proof.
  intros p x y dy_dx C.
  specialize (C decay).
  vm_compute in C.
  discriminate C.
Qed.

(** C3, as stated, fails: in the first pass of the demo the two RECORD
    phases come before UPDATE, and the row appended to [phist] is the
    vector of the variables before the update, not the vector of the
    variables the update leaves. *)
Lemma record_precedes_update :
  let c := Float32.demo in
  let x : list (@tf.F Float32.ops) := Float32.create_training_grid 3 in
  let s := fst (epoch c x 0 (seeded c x)) in
  ~ record_after_update (skipn 1 (log s))
  /\ nth_error (phist s) 0 = Some (hstack (initial_variables c))
  /\ nth_error (phist s) 0 <> option_map hstack (trainable_variables s).
Proof.
  intros c x s; split; [|split].
  - intros (before & records & E & Hr & Hb).
    vm_compute in E.
    do 3 (destruct before as [|e before];
          [discriminate E | injection E as <- E]).
    destruct before as [|e before]; [discriminate E|].
    injection E as <- E.
    cbn in Hb; discriminate Hb.
  - vm_compute; reflexivity.
  - intros E; vm_compute in E; discriminate E.
Qed.

(* ================================================================== *)
(** * Further properties of the script *)
(* ================================================================== *)

(** ** The run as a whole *)

Section WholeRun.
Context {T : tf.Ops}.

Lemma apply_gradients_counter (lr : tf.F) (o : Adam) (grad p : Params) :
  iterations (fst (apply_gradients lr o grad p)) = S (iterations o)
  /\ slots (fst (apply_gradients lr o grad p)) <> None.
Proof.
  unfold apply_gradients, adam_tensor.
  destruct (match slots o with
            | Some s => s
            | None => (zeros_like p, zeros_like p)
            end) as [m vo].
  cbn; split; [reflexivity|discriminate].
Qed.

Lemma step_counter (lr : tf.F) (x : list tf.F) (st : Params * Adam) :
  iterations (snd (step lr x st)) = S (iterations (snd st))
  /\ slots (snd (step lr x st)) <> None.
Proof.
  unfold step.
  pose proof (apply_gradients_counter lr (snd st)
                (tape2_gradient (fst st) x) (fst st)) as C.
  destruct (apply_gradients lr (snd st) (tape2_gradient (fst st) x) (fst st));
    exact C.
Qed.

Lemma state_at_iterations (c : Config) (x : list tf.F) (k : nat) :
  iterations (snd (state_at c x k)) = k.
Proof.
  unfold state_at; induction k as [|k IH]; [reflexivity|].
  rewrite Nat.iter_succ, (proj1 (step_counter _ _ _)), IH; reflexivity.
Qed.

Lemma state_at_slots (c : Config) (x : list tf.F) (k : nat) :
  slots (snd (state_at c x k)) = None <-> k = 0.
Proof.
  destruct k as [|k]; [split; reflexivity|].
  split; [|discriminate].
  unfold state_at; rewrite Nat.iter_succ; intros E.
  destruct (proj2 (step_counter _ _ _) E).
Qed.

Lemma finished_optimizer (c : Config) (ode1ivp : ODE1IVP) (x : list tf.F) :
  optimizer (finished c ode1ivp x) = snd (state_at c x (n_epochs c)).
Proof.
  unfold finished, after_finalize; proj.
  unfold trained; rewrite <- trained_state; reflexivity.
Qed.

Lemma built_rng_once (H : nat) (s : World) :
  rng (built H (built H s)) = rng (built H s).
Proof.
  unfold built at 1; rewrite built_variables; reflexivity.
Qed.

Lemma built_after_epoch (c : Config) (x : list tf.F) (s : World) :
  built (H c) (after_epoch c x s) = after_epoch c x s
  /\ rng (after_epoch c x s) = rng (built (H c) s).
Proof. split; reflexivity. Qed.

Lemma after_epochs_rng (c : Config) (x : list tf.F) (k : nat) (s : World) :
  rng (built (H c) (after_epochs c x k s)) = rng (built (H c) s).
Proof.
  revert s; induction k as [|k IH]; intros s; [reflexivity|].
  cbn [after_epochs]; rewrite IH.
  rewrite (proj1 (built_after_epoch c x s)); reflexivity.
Qed.

Lemma rng_built (H : nat) (s : World) :
  rng (built H s)
  = match trainable_variables s with
    | Some _ => rng s
    | None => snd (build H (rng s))
    end.
Proof. unfold built; destruct (trainable_variables s); reflexivity. Qed.

Lemma finished_rng (c : Config) (ode1ivp : ODE1IVP) (x : list tf.F) :
  rng (finished c ode1ivp x)
  = snd (build (H c) (tf.set_seed (random_seed c))).
Proof.
  unfold finished, after_finalize; proj.
  rewrite rng_built; proj.
  rewrite <- rng_built.
  unfold trained; rewrite after_epochs_rng; reflexivity.
Qed.

Lemma theta_same_run (c1 c2 : Config) (x : list tf.F) (k : nat) :
  H c1 = H c2 -> learning_rate c1 = learning_rate c2 ->
  random_seed c1 = random_seed c2 ->
  theta c1 x k = theta c2 x k.
Proof.
  intros EH El Es.
  unfold theta, state_at, initial_variables; rewrite EH, El, Es; reflexivity.
Qed.

Lemma firstn_map_seq {A : Type} (f : nat -> A) (n m : nat) :
  n <= m -> firstn n (map f (seq 0 m)) = map f (seq 0 n).
Proof.
  intros L.
  replace m with (n + (m - n)) by lia.
  rewrite seq_app, map_app, firstn_app, length_map, length_seq.
  rewrite Nat.sub_diag, firstn_all2 by (rewrite length_map, length_seq; lia).
  apply app_nil_r.
Qed.

End WholeRun.

(** Membership in a list of files given by cases. *)
Ltac in_cases H :=
  repeat match type of H with
         | In _ (_ ++ _) => apply in_app_or in H; destruct H as [H|H]
         | In _ (_ :: _) => destruct H as [H|H]
         | In _ [] => destruct H
         | In _ (match ?o with Some _ => _ | None => _ end) => destruct o
         end.

(** X1. A run whose grid does not have [nt] points raises [ValueError]
    at [reshape]: the training points have been saved, nothing else is
    written, the generator is not seeded, the model is not built and no
    epoch runs. *)
Theorem wrong_grid_stops_before_training :
  forall (T : tf.Ops) (c : Config) (grid : nat -> list tf.F)
         (ode1ivp : ODE1IVP) (g : tf.generator),
    length (grid (nt c)) <> nt c ->
    let r := run c grid ode1ivp g in
    snd r = Raise (ValueError "cannot reshape array")
    /\ files (fst r) = [("training_points.dat"%string, Vector (grid (nt c)))]
    /\ losses (fst r) = []
    /\ phist (fst r) = []
    /\ trainable_variables (fst r) = None
    /\ rng (fst r) = g.
Proof.
  intros T c grid ode1ivp g L r; subst r.
  rewrite run_raise by exact L; repeat split.
Qed.

Lemma wrong_grid_stops_before_training_witness :
  let r := run Float32.demo (fun _ => []) decay 5%Z in
  snd r = Raise (ValueError "cannot reshape array")
  /\ files (fst r) = [("training_points.dat"%string, Vector [])]
  /\ losses (fst r) = []
  /\ phist (fst r) = []
  /\ trainable_variables (fst r) = None
  /\ rng (fst r) = 5%Z.
Proof.
  apply (@wrong_grid_stops_before_training Float32.ops Float32.demo
           (fun _ => []) decay 5%Z).
  simpl; lia.
Defined.

(** X2. In a run that ends normally every vector written has [nt]
    entries (training points, trained solution and derivative, and the
    analytical values and errors when they are written), and [phist.dat]
    is a table of [n_epochs] rows of [3*H] entries. *)
Theorem persisted_shapes :
  forall (T : tf.Ops) (c : Config) (grid : nat -> list tf.F)
         (ode1ivp : ODE1IVP) (g : tf.generator),
    length (grid (nt c)) = nt c ->
    let s := fst (run c grid ode1ivp g) in
    (forall name a, In (name, Vector a) (files s) -> length a = nt c)
    /\ (forall name rows,
          In (name, Table rows) (files s) ->
          name = "phist.dat"%string
          /\ rows = phist s
          /\ length rows = n_epochs c
          /\ Forall (fun row => length row = 3 * H c) rows).
Proof.
  intros T c grid ode1ivp g L s; subst s.
  rewrite run_ok by exact L; cbn [fst].
  rewrite finished_files, finished_phist.
  set (x := grid (nt c)) in *.
  set (p := theta c x (n_epochs c)).
  assert (LN : length (model p x) = nt c)
    by (unfold model; rewrite length_map; exact L).
  assert (LY : length (zip2 tf.mul x (model p x)) = nt c)
    by (apply zip2_same_length; assumption).
  assert (LD : length (zip2 tf.add (zip2 tf.mul x (map (dnet_dx p) x))
                            (model p x)) = nt c).
  { apply zip2_same_length; [|assumption].
    apply zip2_same_length; [assumption|].
    rewrite length_map; exact L. }
  unfold final_files; split.
  - intros name a Hin; in_cases Hin; inversion Hin; subst;
      first [ assumption
            | rewrite length_map; exact L
            | apply zip2_same_length;
              [assumption | rewrite length_map; exact L] ].
  - intros name rows Hin; in_cases Hin; inversion Hin; subst.
    rewrite length_map, length_seq; repeat split.
    apply Forall_forall; intros row Hr.
    apply in_map_iff in Hr; destruct Hr as (k & <- & _).
    apply length_hstack, theta_shaped.
Qed.

Lemma persisted_shapes_witness :
  let s := fst (run Float32.demo Float32.create_training_grid decay 0%Z) in
  (forall name a, In (name, Vector a) (files s) -> length a = 3)
  /\ (forall name rows,
        In (name, Table rows) (files s) ->
        name = "phist.dat"%string
        /\ rows = phist s
        /\ length rows = 3
        /\ Forall (fun row => length row = 3 * 2) rows).
Proof.
  apply (@persisted_shapes Float32.ops Float32.demo
           Float32.create_training_grid decay 0%Z).
  reflexivity.
Defined.

(** X3. With [n_epochs = 0] the loop body never runs: the histories stay
    empty and [phist.dat] is an empty table, the optimizer is untouched,
    and the layers are built by the final evaluation, which reports the
    untrained solution of the initial variables. *)
Theorem zero_epochs_run :
  forall (T : tf.Ops) (c : Config) (grid : nat -> list tf.F)
         (ode1ivp : ODE1IVP) (g : tf.generator),
    length (grid (nt c)) = nt c ->
    n_epochs c = 0 ->
    let x := grid (nt c) in
    let p := initial_variables c in
    exists s : World,
      run c grid ode1ivp g = (s, Ok tt)
      /\ losses s = []
      /\ phist s = []
      /\ In ("phist.dat"%string, Table []) (files s)
      /\ optimizer s = mkAdam 0 None
      /\ trainable_variables s = Some p
      /\ In ("Yt.dat"%string, Vector (zip2 tf.mul x (model p x))) (files s)
      /\ log s = [INIT; FINALIZE].
Proof.
  intros T c grid ode1ivp g L Z x p.
  exists (finished c ode1ivp x).
  split; [apply run_ok; exact L|].
  rewrite finished_losses, finished_phist, finished_files, finished_optimizer,
    finished_variables, finished_log, Z.
  repeat split.
  - right; left; reflexivity.
  - right; right; left; reflexivity.
Qed.

Lemma zero_epochs_run_witness :
  let c := @mkConfig Float32.ops 2 3 0 (Float32.of_Z 1) 0 in
  let x : list (@tf.F Float32.ops) := Float32.create_training_grid 3 in
  let p := initial_variables c in
  exists s : World,
    run c Float32.create_training_grid decay 0%Z = (s, Ok tt)
    /\ losses s = []
    /\ phist s = []
    /\ In ("phist.dat"%string, Table []) (files s)
    /\ optimizer s = mkAdam 0 None
    /\ trainable_variables s = Some p
    /\ In ("Yt.dat"%string, Vector (zip2 tf.mul x (model p x))) (files s)
    /\ log s = [INIT; FINALIZE].
Proof.
  apply (@zero_epochs_run Float32.ops
           (@mkConfig Float32.ops 2 3 0 (Float32.of_Z 1) 0)
           Float32.create_training_grid decay 0%Z); reflexivity.
Defined.

(** X4. Histories are append-only across run lengths: of two runs that
    differ only in [n_epochs], the histories of the shorter are the first
    entries of the histories of the longer.  Training further never
    changes what earlier epochs recorded. *)
Theorem longer_run_extends_history :
  forall (T : tf.Ops) (c1 c2 : Config) (grid : nat -> list tf.F)
         (ode1 ode2 : ODE1IVP) (g1 g2 : tf.generator),
    H c1 = H c2 ->
    nt c1 = nt c2 ->
    learning_rate c1 = learning_rate c2 ->
    random_seed c1 = random_seed c2 ->
    n_epochs c1 <= n_epochs c2 ->
    let s1 := fst (run c1 grid ode1 g1) in
    let s2 := fst (run c2 grid ode2 g2) in
    losses s1 = firstn (n_epochs c1) (losses s2)
    /\ phist s1 = firstn (n_epochs c1) (phist s2).
Proof.
  intros T c1 c2 grid ode1 ode2 g1 g2 EH En El Es Le s1 s2.
  subst s1 s2; rewrite !run_total, En.
  destruct (Nat.eqb (length (grid (nt c2))) (nt c2)); cbn [fst].
  - rewrite !finished_losses, !finished_phist.
    rewrite !firstn_map_seq by exact Le.
    split; apply map_ext; intros k;
      rewrite (theta_same_run c1 c2 _ k EH El Es); reflexivity.
  - proj; rewrite !firstn_nil; split; reflexivity.
Qed.

Lemma longer_run_extends_history_witness :
  let c1 := @mkConfig Float32.ops 2 3 1
                      (Float32.div (Float32.of_Z 1) (Float32.of_Z 100)) 0 in
  let s1 := fst (run c1 Float32.create_training_grid decay 0%Z) in
  let s2 := fst (run Float32.demo Float32.create_training_grid decay 7%Z) in
  losses s1 = firstn 1 (losses s2) /\ phist s1 = firstn 1 (phist s2).
Proof.
  apply (@longer_run_extends_history Float32.ops
           (@mkConfig Float32.ops 2 3 1
                      (Float32.div (Float32.of_Z 1) (Float32.of_Z 100)) 0)
           Float32.demo Float32.create_training_grid decay decay 0%Z 7%Z);
    try reflexivity.
  simpl; lia.
Defined.

(** X5. In a run that ends normally the layers are built exactly once,
    from the generator as [tf.random.set_seed] left it: whatever the
    number of epochs and whatever state the generator started in, it ends
    in the state that one build leaves. *)
Theorem variables_built_once :
  forall (T : tf.Ops) (c : Config) (grid : nat -> list tf.F)
         (ode1ivp : ODE1IVP) (g : tf.generator),
    length (grid (nt c)) = nt c ->
    rng (fst (run c grid ode1ivp g))
    = snd (build (H c) (tf.set_seed (random_seed c))).
Proof.
  intros T c grid ode1ivp g L.
  rewrite run_ok by exact L; cbn [fst].
  apply finished_rng.
Qed.

Lemma variables_built_once_witness :
  rng (fst (run Float32.demo Float32.create_training_grid decay 9%Z))
  = snd (build (T := Float32.ops) 2 (tf.set_seed 0%Z)).
Proof.
  apply (@variables_built_once Float32.ops Float32.demo
           Float32.create_training_grid decay 9%Z).
  reflexivity.
Defined.

(** X6. In a run that ends normally the optimizer has taken exactly
    [n_epochs] steps; its moment estimates exist exactly when at least one
    epoch ran, and then have the shapes of the variables. *)
Theorem optimizer_steps_equal_epochs :
  forall (T : tf.Ops) (c : Config) (grid : nat -> list tf.F)
         (ode1ivp : ODE1IVP) (g : tf.generator),
    length (grid (nt c)) = nt c ->
    let o := optimizer (fst (run c grid ode1ivp g)) in
    iterations o = n_epochs c
    /\ (slots o = None <-> n_epochs c = 0)
    /\ forall m vo, slots o = Some (m, vo) ->
                    shaped (H c) m /\ shaped (H c) vo.
Proof.
  intros T c grid ode1ivp g L o; subst o.
  rewrite run_ok by exact L; cbn [fst].
  rewrite finished_optimizer.
  split; [apply state_at_iterations|].
  split; [apply state_at_slots|].
  intros m vo E.
  pose proof (proj2 (state_at_shaped c (grid (nt c)) (n_epochs c))) as S.
  unfold slots_shaped in S; rewrite E in S; exact S.
Qed.

Lemma optimizer_steps_equal_epochs_witness :
  let o := optimizer (fst (run Float32.demo Float32.create_training_grid
                               decay 0%Z)) in
  iterations o = 3
  /\ (slots o = None <-> 3 = 0)
  /\ forall m vo, slots o = Some (m, vo) -> shaped 2 m /\ shaped 2 vo.
Proof.
  apply (@optimizer_steps_equal_epochs Float32.ops Float32.demo
           Float32.create_training_grid decay 0%Z).
  reflexivity.
Defined.

(** ** The equation, in exact arithmetic *)

Section Equation.
Local Open Scope R_scope.
Local Unset Implicit Arguments.

Lemma sigmoid_bounds (z : R) : 0 < Exact.sigmoid z < 1.
Proof.
  unfold Exact.sigmoid.
  pose proof (exp_pos (- z)) as P.
  split.
  - apply Rdiv_lt_0_compat; lra.
  - apply (Rmult_lt_reg_r (1 + Rtrigo_def.exp (- z))); [lra|].
    field_simplify; lra.
Qed.

Lemma sum_nonneg (l : list R) :
  Forall (Rle 0) l -> 0 <= fold_left Rplus l 0.
Proof.
  induction 1 as [|a l Ha Hl IH]; simpl; [lra|].
  rewrite sum_from; lra.
Qed.

Lemma sum_zero_iff (l : list R) :
  Forall (Rle 0) l ->
  (fold_left Rplus l 0 = 0 <-> Forall (eq 0) l).
Proof.
  induction 1 as [|a l Ha Hl IH]; simpl.
  - split; auto.
  - rewrite sum_from.
    pose proof (sum_nonneg l Hl) as P.
    split.
    + intros E; constructor; [lra|apply IH; lra].
    + intros E; inversion E as [|? ? E1 E2]; subst.
      apply IH in E2; lra.
Qed.

Lemma residual_eq (p : @Params Exact.ops) (x : R) :
  residual p x
  = dtrial_dx p x + trial p x / 5
    - Rtrigo_def.exp (- x / 5) * Rtrigo_def.cos x.
Proof. reflexivity. Qed.

Lemma loss_eq (p : @Params Exact.ops) (x : list R) :
  loss p x
  = fold_left Rplus (map (fun xi => residual p xi * residual p xi) x) 0.
Proof. unfold loss, loss_of, reduce_sum; rewrite map_map; reflexivity. Qed.

End Equation.

(** X7. The loss is zero exactly when the trial solution satisfies the
    differential equation [y' + y/5 = exp(-x/5) cos x] at every training
    point, [y'] being the derivative of [y = x*N] with respect to [x]. *)
Theorem zero_loss_iff_equation_holds :
  forall (p : @Params Exact.ops) (x : list R),
    loss p x = 0%R
    <-> forall xi : R,
          In xi x ->
          exists d : R,
            derivable_pt_lim (trial p) xi d
            /\ (d + trial p xi / 5
                = Rtrigo_def.exp (- xi / 5) * Rtrigo_def.cos xi)%R.
Proof.
  intros p x; rewrite loss_eq.
  assert (N : Forall (Rle 0)
                     (map (fun xi => residual p xi * residual p xi)%R x)).
  { apply Forall_forall; intros a Ha.
    apply in_map_iff in Ha; destruct Ha as (xi & <- & _); nra. }
  rewrite (sum_zero_iff _ N), Forall_forall.
  split.
  - intros Z xi Hin.
    exists (dtrial_dx p xi); split; [apply dtrial_dx_is_derivative|].
    assert (E : (0 = residual p xi * residual p xi)%R)
      by (apply Z, in_map_iff; exists xi; auto).
    rewrite residual_eq in E; nra.
  - intros Hx a Ha.
    apply in_map_iff in Ha; destruct Ha as (xi & <- & Hin).
    destruct (Hx xi Hin) as (d & Hd & E).
    rewrite (uniqueness_limite _ _ _ _ Hd (dtrial_dx_is_derivative p xi)) in E.
    rewrite residual_eq; nra.
Qed.

Section FinalEvaluation.
Local Open Scope R_scope.
Local Unset Implicit Arguments.

Lemma final_derivative_eq (p : @Params Exact.ops)
      (x : list (@tf.F Exact.ops)) :
  zip2 tf.add (zip2 tf.mul x (map (dnet_dx p) x)) (model p x)
  = map (fun xi => xi * dnet_dx p xi + net p xi) x.
Proof.
  unfold model; induction x as [|a x IH]; cbn [zip2 map]; [reflexivity|].
  rewrite IH; reflexivity.
Qed.

Lemma product_rule (p : @Params Exact.ops) (x : R) :
  derivable_pt_lim (trial p) x (x * dnet_dx p x + net p x).
Proof.
  apply (d_eq _ _ _ _ (dtrial_dx_is_derivative p x)).
  rewrite dnet_sum, dnet_dx_sum; ring.
Qed.

End FinalEvaluation.

(** X8. In exact arithmetic (the real numbers in place of binary32):
    in a run whose grid has [nt] points, entry [i] of [Yt.dat] is the
    trained trial solution at training point [i], and entry [i] of
    [dYt_dx.dat], computed as [x*dN_dx + N], is its derivative there: the
    derivative reported after training is the one the loss was built on. *)
Theorem reported_derivative_is_derivative :
  forall (c : @Config Exact.ops) (grid : nat -> list (@tf.F Exact.ops))
         (ode1ivp : @ODE1IVP Exact.ops) (g : @tf.generator Exact.ops)
         (i : nat) (xi : @tf.F Exact.ops),
    length (grid (nt c)) = nt c ->
    nth_error (grid (nt c)) i = Some xi ->
    let x : list (@tf.F Exact.ops) := grid (nt c) in
    let p := theta c x (n_epochs c) in
    let s := fst (run c grid ode1ivp g) in
    exists Yt dYt_dx : list (@tf.F Exact.ops),
      In ("Yt.dat"%string, Vector Yt) (files s)
      /\ In ("dYt_dx.dat"%string, Vector dYt_dx) (files s)
      /\ nth_error Yt i = Some (trial p xi)
      /\ nth_error dYt_dx i = Some (dtrial_dx p xi)
      /\ derivable_pt_lim (trial p) xi (dtrial_dx p xi).
Proof.
  intros c grid ode1ivp g i xi L Hi x p s.
  exists (zip2 tf.mul x (model p x)).
  exists (zip2 tf.add (zip2 tf.mul x (map (dnet_dx p) x)) (model p x)).
  subst s; rewrite run_ok by exact L; cbn [fst].
  rewrite finished_files; fold x; fold p.
  split; [right; right; left; reflexivity|].
  split; [right; right; right; left; reflexivity|].
  split; [|split].
  - change (zip2 tf.mul x (model p x)) with (trial_solution x (model p x)).
    rewrite trial_solution_eq.
    apply map_nth_error; exact Hi.
  - rewrite final_derivative_eq.
    etransitivity; [apply map_nth_error; exact Hi|].
    f_equal.
    apply (uniqueness_limite _ _ _ _ (product_rule p xi)
                             (dtrial_dx_is_derivative p xi)).
  - apply dtrial_dx_is_derivative.
Qed.

Lemma reported_derivative_is_derivative_witness :
  let c := Exact.demo in
  let x : list (@tf.F Exact.ops) := Exact.create_training_grid 3 in
  let p := theta c x 3 in
  let s := fst (run c Exact.create_training_grid decay 0%Z) in
  exists Yt dYt_dx : list (@tf.F Exact.ops),
    In ("Yt.dat"%string, Vector Yt) (files s)
    /\ In ("dYt_dx.dat"%string, Vector dYt_dx) (files s)
    /\ nth_error Yt 0 = Some (trial p (0 / 2)%R)
    /\ nth_error dYt_dx 0 = Some (dtrial_dx p (0 / 2)%R)
    /\ derivable_pt_lim (trial p) (0 / 2)%R
                        (dtrial_dx p (0 / 2)%R).
Proof.
  apply (@reported_derivative_is_derivative Exact.demo
           Exact.create_training_grid decay 0%Z 0 (0 / 2)%R);
    reflexivity.
Defined.

Section Bounds.
Local Open Scope R_scope.
Local Unset Implicit Arguments.

Lemma units_bound (x : R) (ws us vs : list R) :
  Rabs (fold_left Rplus
          (zip3 (fun wj uj vj => Exact.sigmoid (x * wj + uj) * vj) ws us vs) 0)
  <= fold_left Rplus (map Rabs vs) 0.
Proof.
  assert (P : forall l, 0 <= fold_left Rplus (map Rabs l) 0).
  { intros l; apply sum_nonneg, Forall_forall; intros a Ha.
    apply in_map_iff in Ha; destruct Ha as (b & <- & _); apply Rabs_pos. }
  revert us vs; induction ws as [|a ws IH]; intros [|b us] [|c vs];
    cbn [zip3]; try (cbn [fold_left]; rewrite Rabs_R0; apply P).
  cbn [map fold_left].
  rewrite (sum_from (zip3 _ ws us vs)), (sum_from (map Rabs vs)).
  pose proof (sigmoid_bounds (x * a + b)) as S.
  pose proof (IH us vs) as B.
  pose proof (Rabs_pos c) as C.
  assert (A : Rabs (Exact.sigmoid (x * a + b) * c) <= Rabs c).
  { rewrite Rabs_mult, (Rabs_pos_eq (Exact.sigmoid _)) by lra; nra. }
  eapply Rle_trans; [apply Rabs_triang|].
  rewrite !Rplus_0_l; lra.
Qed.

Lemma sum_zeros (l : list R) :
  Forall (eq 0) l -> fold_left Rplus l 0 = 0.
Proof.
  induction 1 as [|a l Ha Hl IH]; simpl; [reflexivity|].
  rewrite sum_from, IH, <- Ha; ring.
Qed.

End Bounds.

(** X9. In exact arithmetic (the real numbers in place of binary32):
    with sigmoid hidden units and a linear output without bias, the
    network output is bounded for every input by the sum of the absolute
    values of the output weights, and the trial solution by [|x|] times
    that sum. *)
Theorem network_output_bounded :
  forall (p : @Params Exact.ops) (x : R),
    (Rabs (net p x) <= fold_left Rplus (map Rabs (v p)) 0)%R
    /\ (Rabs (trial p x)
        <= Rabs x * fold_left Rplus (map Rabs (v p)) 0)%R.
Proof.
  intros p x.
  assert (B : (Rabs (net p x) <= fold_left Rplus (map Rabs (v p)) 0)%R)
    by (rewrite net_sum; apply units_bound).
  split; [exact B|].
  unfold trial; cbn [tf.mul Exact.ops]; rewrite Rabs_mult.
  apply Rmult_le_compat_l; [apply Rabs_pos | exact B].
Qed.

(** X10. In exact arithmetic (the real numbers in place of binary32):
    at the point of the initial condition, [x = 0], the residual of line
    133 is [N(0) - 1] for every real value of the variables: the trial
    solution contributes nothing there, so the loss sees only the network
    output. *)
Theorem residual_at_zero :
  forall p : @Params Exact.ops,
    residual p 0%R = (net p 0%R - 1)%R
    /\ dtrial_dx p 0%R = net p 0%R.
Proof.
  intros p.
  assert (D : dtrial_dx p 0%R = net p 0%R :> R).
  { rewrite dnet_sum; ring. }
  split; [|exact D].
  change (residual p 0%R = (net p 0 - 1)%R :> R).
  rewrite residual_eq, D.
  unfold trial; cbn [tf.mul Exact.ops].
  replace (- 0 / 5)%R with 0%R by field.
  rewrite exp_0, cos_0; field.
Qed.

(** ** Not-a-number in binary32 *)

Section NaN.
Local Open Scope tf_scope.

Let F32 : Type := @tf.F Float32.ops.
Let nan : F32 := Float32.nan.

Lemma add_nan_l (y : F32) : nan + y = nan.
Proof. reflexivity. Qed.

Lemma add_nan_r (x : F32) : x + nan = nan.
Proof. destruct x; reflexivity. Qed.

Lemma sub_nan_l (y : F32) : nan - y = nan.
Proof. reflexivity. Qed.

Lemma sub_nan_r (x : F32) : x - nan = nan.
Proof. destruct x; reflexivity. Qed.

Lemma mul_nan_l (y : F32) : nan * y = nan.
Proof. reflexivity. Qed.

Lemma mul_nan_r (x : F32) : x * nan = nan.
Proof. destruct x; reflexivity. Qed.

Lemma div_nan_l (y : F32) : nan / y = nan.
Proof. reflexivity. Qed.

Lemma div_nan_r (x : F32) : x / nan = nan.
Proof. destruct x; reflexivity. Qed.

Lemma fold_add_nan (l : list F32) : fold_left tf.add l nan = nan.
Proof.
  induction l as [|a l IH]; [reflexivity|].
  cbn [fold_left]; rewrite add_nan_l; exact IH.
Qed.

(** A sum with a not-a-number among its terms is not a number. *)
Lemma reduce_sum_nan (l : list F32) : In nan l -> reduce_sum l = nan.
Proof.
  unfold reduce_sum; generalize (zero : F32) as a.
  induction l as [|b l IH]; intros a Hin; [destruct Hin|].
  destruct Hin as [E|Hin]; cbn [fold_left].
  - rewrite E, add_nan_r; apply fold_add_nan.
  - apply IH; exact Hin.
Qed.


Lemma zip3_forall {A B C D : Type} (P : D -> Prop) (f : A -> B -> C -> D)
      (la : list A) (lb : list B) (lc : list C) :
  (forall a b c, P (f a b c)) -> Forall P (zip3 f la lb lc).
Proof.
  intros Hf; revert lb lc; induction la as [|a la IH];
    intros [|b lb] [|c lc]; cbn [zip3]; constructor; auto.
Qed.

Lemma zip2_forall_1 {A B C : Type} (P : A -> Prop) (Q : C -> Prop)
      (f : A -> B -> C) (la : list A) (lb : list B) :
  (forall a b, P a -> Q (f a b)) -> Forall P la -> Forall Q (zip2 f la lb).
Proof.
  intros Hf Hl; revert lb; induction Hl as [|a la Ha Hl IH];
    intros [|b lb]; cbn [zip2]; constructor; auto.
Qed.

Lemma zip3_forall_1 {A B C D : Type} (P : A -> Prop) (Q : D -> Prop)
      (f : A -> B -> C -> D) (la : list A) (lb : list B) (lc : list C) :
  (forall a b c, P a -> Q (f a b c)) -> Forall P la ->
  Forall Q (zip3 f la lb lc).
Proof.
  intros Hf Hl; revert lb lc; induction Hl as [|a la Ha Hl IH];
    intros [|b lb] [|c lc]; cbn [zip3]; constructor; auto.
Qed.

(** All entries of the three tensors are not-a-number. *)
Let all_nan (p : @Params Float32.ops) : Prop :=
  Forall (eq nan) (w p) /\ Forall (eq nan) (u p) /\ Forall (eq nan) (v p).

Let poisoned (p : @Params Float32.ops) (x : list F32) : Prop :=
  exists xi, In xi x /\ residual p xi = nan.

Lemma loss_nan (p : @Params Float32.ops) (x : list F32) :
  poisoned p x -> loss p x = nan.
Proof.
  intros (xi & Hin & E); unfold loss, loss_of.
  apply reduce_sum_nan, in_map_iff.
  exists (residual p xi); split; [rewrite E; reflexivity|].
  apply in_map; exact Hin.
Qed.

Lemma dL_nan (p : @Params Float32.ops) (x : list F32) (d : F32 -> F32) :
  poisoned p x -> dL p x d = nan.
Proof.
  intros (xi & Hin & E); unfold dL.
  apply reduce_sum_nan, in_map_iff.
  exists xi; split; [|exact Hin].
  rewrite E, mul_nan_r, mul_nan_l; reflexivity.
Qed.

Lemma gradient_nan (p : @Params Float32.ops) (x : list F32) :
  poisoned p x -> all_nan (tape2_gradient p x).
Proof.
  intros P; unfold all_nan, tape2_gradient; cbn [w u v].
  repeat split; apply zip3_forall; intros a b c;
    symmetry; apply dL_nan; exact P.
Qed.

Lemma adam_tensor_nan (lr : F32) (t : nat) (m vo g th : list F32) :
  Forall (eq nan) g ->
  Forall (eq nan) (snd (adam_tensor lr t m vo g th)).
Proof.
  intros G; unfold adam_tensor; cbn [snd].
  apply zip3_forall_1 with (P := eq nan).
  - intros a b c <-; unfold adam_step.
    rewrite div_nan_l, mul_nan_r, div_nan_l, sub_nan_r; reflexivity.
  - apply zip2_forall_1 with (P := eq nan); [|exact G].
    intros a b <-; unfold adam_m.
    rewrite mul_nan_r, add_nan_r; reflexivity.
Qed.

Lemma apply_gradients_nan (lr : F32) (o : Adam) (grad p : @Params Float32.ops) :
  all_nan grad -> all_nan (snd (apply_gradients lr o grad p)).
Proof.
  intros (Gw & Gu & Gv); unfold apply_gradients.
  destruct (match slots o with
            | Some s => s
            | None => (zeros_like p, zeros_like p)
            end) as [m vo].
  pose proof (adam_tensor_nan lr (S (iterations o)) (w m) (w vo) (w p) Gw)
    as Nw.
  pose proof (adam_tensor_nan lr (S (iterations o)) (u m) (u vo) (u p) Gu)
    as Nu.
  pose proof (adam_tensor_nan lr (S (iterations o)) (v m) (v vo) (v p) Gv)
    as Nv.
  destruct (adam_tensor lr (S (iterations o)) (w m) (w vo) (w grad) (w p))
    as [[mw vw] w'].
  destruct (adam_tensor lr (S (iterations o)) (u m) (u vo) (u grad) (u p))
    as [[mu vu] u'].
  destruct (adam_tensor lr (S (iterations o)) (v m) (v vo) (v grad) (v p))
    as [[mv vv] v'].
  repeat split; assumption.
Qed.

(** With at least one hidden unit, variables that are all not-a-number
    give a residual that is not a number at every point. *)
Lemma residual_nan (H : nat) (p : @Params Float32.ops) (xi : F32) :
  0 < H -> shaped H p -> all_nan p -> residual p xi = nan.
Proof.
  intros HH (Lw & Lu & Lv) (Nw & Nu & Nv).
  assert (N : net p xi = nan).
  { unfold net, output_layer, hidden_layer.
    destruct (w p) as [|a ws]; [cbn in Lw; lia|].
    destruct (u p) as [|b us]; [cbn in Lu; lia|].
    destruct (v p) as [|c vs]; [cbn in Lv; lia|].
    inversion Nv as [|? ? <- _]; subst.
    cbn [zip2]; apply reduce_sum_nan; left.
    apply mul_nan_r. }
  unfold residual, G_at, dtrial_dx; rewrite N.
  rewrite ?add_nan_l, ?sub_nan_l; reflexivity.
Qed.

Local Close Scope tf_scope.

Lemma step_nan (lr : F32) (x : list F32) (st : @Params Float32.ops * Adam) :
  poisoned (fst st) x -> all_nan (fst (step lr x st)).
Proof.
  intros P; unfold step.
  pose proof (apply_gradients_nan lr (snd st) (fst st) (gradient_nan P))
    as N.
  destruct (apply_gradients lr (snd st) (tape2_gradient (fst st) x) (fst st))
    as [o p]; exact N.
Qed.

Lemma poisoned_forever (c : @Config Float32.ops) (x : list F32) (k d : nat) :
  0 < H c -> poisoned (theta c x k) x ->
  poisoned (theta c x (k + d)) x /\
  (0 < d -> all_nan (theta c x (k + d))).
Proof.
  intros HH P; induction d as [|d [IH _]].
  - rewrite Nat.add_0_r; split; [exact P | lia].
  - rewrite Nat.add_succ_r.
    assert (N : all_nan (theta c x (S (k + d)))).
    { unfold theta, state_at; cbn [Nat.iter]; apply step_nan; exact IH. }
    split; [|intros _; exact N].
    destruct P as (xi & Hin & _); exists xi; split; [exact Hin|].
    apply residual_nan with (H := H c); [exact HH | apply theta_shaped | exact N].
Qed.

Lemma constant_list {A : Type} (a : A) (l : list A) (n : nat) :
  length l = n -> Forall (eq a) l -> l = repeat a n.
Proof. intros <-; apply Forall_eq_repeat. Qed.

Lemma all_nan_repeat (n : nat) (p : @Params Float32.ops) :
  shaped n p -> all_nan p ->
  w p = repeat nan n /\ u p = repeat nan n /\ v p = repeat nan n.
Proof.
  intros (Lw & Lu & Lv) (Nw & Nu & Nv).
  repeat split; apply constant_list; assumption.
Qed.

(** X15. Not-a-number is never recovered from.  In binary32, with at
    least one hidden unit: once the residual is not a number at some
    training point in pass [k], the recorded loss of every later pass [j]
    is not a number, every row of the parameter history after row [k] holds
    [3*H] not-a-numbers, and so do the variables the run ends with. *)
Theorem nan_is_never_recovered :
  forall (c : @Config Float32.ops) (grid : nat -> list (@tf.F Float32.ops))
         (ode1ivp : ODE1IVP) (g : tf.generator) (k j : nat),
    length (grid (nt c)) = nt c ->
    0 < H c ->
    k <= j -> j < n_epochs c ->
    (exists xi, In xi (grid (nt c)) /\
                residual (theta c (grid (nt c)) k) xi = Float32.nan) ->
    let s := fst (run c grid ode1ivp g) in
    let nans : list (@tf.F Float32.ops) := repeat Float32.nan (H c) in
    nth_error (losses s) j = Some Float32.nan
    /\ (k < j -> nth_error (phist s) j = Some (nans ++ nans ++ nans))
    /\ trainable_variables s = Some (mkParams nans nans nans).
Proof.
  intros c grid ode1ivp g k j L HH Hkj Hj P s nans; subst s.
  rewrite run_ok by exact L; cbn [fst].
  rewrite finished_losses, finished_phist, finished_variables.
  rewrite !nth_error_map_seq.
  apply Nat.ltb_lt in Hj as Hj'; rewrite Hj'.
  destruct (@poisoned_forever c (grid (nt c)) k (j - k) HH P) as [Pj Nj].
  replace (k + (j - k)) with j in Pj, Nj by lia.
  split; [f_equal; apply loss_nan; exact Pj|].
  split.
  - intros Hlt; f_equal; unfold hstack.
    assert (S : shaped (H c) (theta c (grid (nt c)) j))
      by apply theta_shaped.
    destruct (@all_nan_repeat _ _ S) as (-> & -> & ->);
      [apply Nj; lia | reflexivity].
  - destruct (@poisoned_forever c (grid (nt c)) k (n_epochs c - k) HH P)
      as [_ Nn].
    replace (k + (n_epochs c - k)) with (n_epochs c) in Nn by lia.
    assert (S : shaped (H c) (theta c (grid (nt c)) (n_epochs c)))
      by apply theta_shaped.
    destruct (@all_nan_repeat _ _ S) as (Ew & Eu & Ev); [apply Nn; lia|].
    f_equal.
    destruct (theta c (grid (nt c)) (n_epochs c)) as [tw tu tv].
    cbn [w u v] in Ew, Eu, Ev; subst; reflexivity.
Qed.

(** With a learning rate that is not a number, one update leaves
    variables that are not numbers, whatever the variables, the gradient
    and the moment estimates were. *)
Lemma nan_rate_poisons (o : Adam) (grad p : @Params Float32.ops) :
  all_nan (snd (apply_gradients nan o grad p)).
Proof.
  assert (N : forall (t : nat) (m vo gr th : list F32),
             Forall (eq nan) (snd (adam_tensor nan t m vo gr th))).
  { intros t m vo gr th; unfold adam_tensor; cbn [snd].
    apply zip3_forall; intros a b c; unfold adam_step.
    symmetry; apply sub_nan_r. }
  unfold apply_gradients.
  destruct (match slots o with
            | Some s => s
            | None => (zeros_like p, zeros_like p)
            end) as [m vo].
  pose proof (N (S (iterations o)) (w m) (w vo) (w grad) (w p)) as Nw.
  pose proof (N (S (iterations o)) (u m) (u vo) (u grad) (u p)) as Nu.
  pose proof (N (S (iterations o)) (v m) (v vo) (v grad) (v p)) as Nv.
  destruct (adam_tensor nan (S (iterations o)) (w m) (w vo) (w grad) (w p))
    as [[mw vw] w'].
  destruct (adam_tensor nan (S (iterations o)) (u m) (u vo) (u grad) (u p))
    as [[mu vu] u'].
  destruct (adam_tensor nan (S (iterations o)) (v m) (v vo) (v grad) (v p))
    as [[mv vv] v'].
  repeat split; assumption.
Qed.

End NaN.

Lemma nan_is_never_recovered_witness :
  let c := @mkConfig Float32.ops 1 2 4 (learning_rate Float32.diverging) 0 in
  let s := fst (run c Float32.create_training_grid decay 0%Z) in
  nth_error (losses s) 3 = Some Float32.nan
  /\ (2 < 3 -> nth_error (phist s) 3
               = Some ([Float32.nan] ++ [Float32.nan] ++ [Float32.nan]))
  /\ trainable_variables s
     = Some (@mkParams Float32.ops [Float32.nan] [Float32.nan]
                       [Float32.nan]).
Proof.
  intros c.
  apply (@nan_is_never_recovered c Float32.create_training_grid decay 0%Z 2 3).
  - reflexivity.
  - simpl; lia.
  - lia.
  - simpl; lia.
  - exists (Float32.of_Z 0); split; [left; vm_compute; reflexivity|].
    vm_compute; reflexivity.
Defined.

(** ** The output directory *)

Section PathFacts.

Lemma string_of_list_ascii_app (s1 s2 : list ascii) :
  string_of_list_ascii (s1 ++ s2)
  = String.append (string_of_list_ascii s1) (string_of_list_ascii s2).
Proof.
  induction s1 as [|a s1 IH]; simpl; [reflexivity|].
  rewrite IH; reflexivity.
Qed.

Lemma rfind_from_none (c : ascii) (s : list ascii) (i last : Z) :
  Forall (fun a => a <> c) s -> os.rfind_from c s i last = last.
Proof.
  intros Hs; revert i; induction Hs as [|a s Ha Hs IH]; intros i; simpl;
    [reflexivity|].
  apply Ascii.eqb_neq in Ha; rewrite Ha; apply IH.
Qed.

Lemma rfind_from_last (c : ascii) (s1 s2 : list ascii) (i last : Z) :
  Forall (fun a => a <> c) s2 ->
  os.rfind_from c (s1 ++ c :: s2) i last = (i + Z.of_nat (length s1))%Z.
Proof.
  intros Hs; revert i last; induction s1 as [|a s1 IH]; intros i last.
  - simpl; rewrite Ascii.eqb_refl, rfind_from_none by exact Hs; lia.
  - cbn [app os.rfind_from length]; rewrite IH; lia.
Qed.

Lemma rfind_from_cases (c : ascii) (s : list ascii) (i last : Z) :
  (os.rfind_from c s i last = last /\ Forall (fun a => a <> c) s)
  \/ exists s1 s2,
       s = s1 ++ c :: s2 /\ Forall (fun a => a <> c) s2
       /\ os.rfind_from c s i last = (i + Z.of_nat (length s1))%Z.
Proof.
  revert i last; induction s as [|a s IH]; intros i last.
  - left; split; [reflexivity|constructor].
  - cbn [os.rfind_from].
    destruct (IH (i + 1)%Z (if Ascii.eqb a c then i else last))
      as [[E F]|(s1 & s2 & -> & F & E)].
    + destruct (Ascii.eqb_spec a c) as [->|N].
      * right; exists [], s; repeat split; [exact F|].
        rewrite E; simpl; lia.
      * left; split; [exact E|constructor; assumption].
    + right; exists (a :: s1), s2; repeat split; [exact F|].
      rewrite E; cbn [length]; lia.
Qed.

(** The last occurrence: [rfind] is -1 when there is none, and otherwise
    the length of what precedes it. *)
Lemma rfind_cases (c : ascii) (s : list ascii) :
  (os.rfind c s = (-1)%Z /\ Forall (fun a => a <> c) s)
  \/ exists s1 s2,
       s = s1 ++ c :: s2 /\ Forall (fun a => a <> c) s2
       /\ os.rfind c s = Z.of_nat (length s1).
Proof.
  unfold os.rfind.
  destruct (rfind_from_cases c s 0 (-1)) as [H|(s1 & s2 & H1 & H2 & H3)];
    [left; exact H|right].
  exists s1, s2; repeat split; assumption.
Qed.


Lemma forall_app_inv {A : Type} (P : A -> Prop) (l1 l2 : list A) :
  Forall P (l1 ++ l2) -> Forall P l1 /\ Forall P l2.
Proof. intros F; apply Forall_app in F; exact F. Qed.

(** Two ways of cutting one list: the earlier cut is inside the first
    part of the later one. *)
Lemma earlier_cut {A : Type} (s1 s2 t1 t2 : list A) (a b : A) :
  s1 ++ a :: s2 = t1 ++ b :: t2 ->
  length t1 < length s1 ->
  exists t3, s1 = t1 ++ b :: t3 /\ t2 = t3 ++ a :: s2.
Proof.
  revert t1; induction s1 as [|x s1 IH]; intros [|y t1] E L;
    cbn [length] in L; try lia.
  - injection E as -> E; exists s1; split; [reflexivity|symmetry; exact E].
  - injection E as -> E.
    destruct (IH t1 E) as (t3 & -> & ->); [lia|].
    exists t3; split; reflexivity.
Qed.

(** What [splitext] returns, in terms of the characters of the path. *)
Lemma splitext_cases (p : string) :
  os.splitext p = (p, EmptyString)
  \/ exists s1 s2,
       list_ascii_of_string p = s1 ++ "."%char :: s2
       /\ os.splitext p = (string_of_list_ascii s1,
                           string_of_list_ascii ("."%char :: s2))
       /\ Forall (fun a => a <> "."%char) s2
       /\ Forall (fun a => a <> "/"%char) s2
       /\ os.rfind "/" s1 = os.rfind "/" (list_ascii_of_string p).
Proof.
  unfold os.splitext.
  set (s := list_ascii_of_string p).
  destruct (Z.ltb_spec (os.rfind "/" s) (os.rfind "." s)) as [L|L];
    [|left; reflexivity].
  destruct (os.has_stem (os.slice s (os.rfind "/" s + 1) (os.rfind "." s)));
    [|left; reflexivity].
  right; cbn [andb].
  destruct (rfind_cases "." s) as [[E _]|(s1 & s2 & Es & Fd & Ed)].
  { destruct (rfind_cases "/" s) as [[E' _]|(t1 & t2 & _ & _ & E')]; lia. }
  exists s1, s2.
  rewrite Ed, Nat2Z.id, Es.
  rewrite firstn_app, firstn_all, Nat.sub_diag, app_nil_r.
  rewrite skipn_app, skipn_all, Nat.sub_diag.
  split; [reflexivity|]; split; [reflexivity|]; split; [exact Fd|].
  rewrite <- Es.
  destruct (rfind_cases "/" s) as [[E' Fs]|(t1 & t2 & Et & Fs & E')].
  - rewrite Es in Fs; apply forall_app_inv in Fs; destruct Fs as [F1 F2].
    inversion F2 as [|? ? _ F3]; subst.
    split; [exact F3|].
    rewrite E'; unfold os.rfind; apply rfind_from_none; exact F1.
  - assert (Lt : length t1 < length s1) by lia.
    rewrite Es in Et.
    destruct (earlier_cut _ _ _ _ _ _ Et Lt) as (t3 & -> & ->).
    apply forall_app_inv in Fs; destruct Fs as [F3 F4].
    inversion F4 as [|? ? _ F5]; subst.
    split; [exact F5|].
    rewrite E'; unfold os.rfind.
    rewrite rfind_from_last by exact F3; lia.
Qed.

End PathFacts.

Section OutputDirectory.
Local Open Scope string_scope.

Lemma rfind_lt_length (c : ascii) (s : list ascii) :
  (os.rfind c s < Z.of_nat (length s))%Z.
Proof.
  destruct (rfind_cases c s) as [[E _]|(s1 & s2 & -> & _ & E)]; rewrite E.
  - lia.
  - rewrite length_app; cbn [length]; lia.
Qed.

Lemma dirname_eq (p : string) (s1 s2 : list ascii) :
  list_ascii_of_string p = (s1 ++ s2)%list ->
  os.rfind "/" s1 = os.rfind "/" (list_ascii_of_string p) ->
  os.dirname (string_of_list_ascii s1) = os.dirname p.
Proof.
  intros Es Er; unfold os.dirname.
  rewrite list_ascii_of_string_of_list_ascii, <- Er, Es.
  pose proof (rfind_lt_length "/" s1) as L.
  rewrite firstn_app.
  replace (Z.to_nat (os.rfind "/" s1 + 1) - length s1) with 0 by lia.
  cbn [firstn]; rewrite app_nil_r; reflexivity.
Qed.

Lemma create_output_directory_eq (__file__ : string) (fs : os.filesystem) :
  create_output_directory __file__ fs
  = let output_dir := fst (os.splitext __file__) in
    if negb (os.exists_ fs output_dir) then
      match os.mkdir output_dir fs with
      | (fs', inr _) => (fs', inr output_dir)
      | (fs', inl e) => (fs', inl e)
      end
    else (fs, inr output_dir).
Proof.
  unfold create_output_directory.
  destruct (os.splitext __file__); reflexivity.
Qed.

End OutputDirectory.

Section OutputPath.
Local Open Scope string_scope.

Lemma append_empty_r (s : string) : s ++ "" = s.
Proof. induction s as [|a s IH]; simpl; [reflexivity|rewrite IH; reflexivity]. Qed.

Lemma create_output_directory_returns (__file__ : string)
      (fs fs' : os.filesystem) (d : string) :
  create_output_directory __file__ fs = (fs', inr d) ->
  d = fst (os.splitext __file__).
Proof.
  rewrite create_output_directory_eq; cbv zeta.
  destruct (negb (os.exists_ fs (fst (os.splitext __file__)))).
  - destruct (os.mkdir (fst (os.splitext __file__)) fs) as [fs1 [e|[]]];
      intros E; inversion E; reflexivity.
  - intros E; inversion E; reflexivity.
Qed.

End OutputPath.

(** X11. [create_output_directory] calls [os.mkdir] only when
    [os.path.exists] is false at the script path without its extension.
    When it returns, it returns that path, the path exists, nothing that
    was there before has been removed or changed, nothing at all has
    changed if the path existed already, and a second call returns the
    same path and changes nothing.  When it fails, the path did not exist
    and nothing has changed; the error is [FileExistsError] exactly when
    the path is a symbolic link whose target does not exist. *)
Theorem output_directory_outcome :
  forall (__file__ : string) (fs : os.filesystem),
    let output_dir := fst (os.splitext __file__) in
    match create_output_directory __file__ fs with
    | (fs', inr d) =>
        d = output_dir
        /\ os.exists_ fs' d = true
        /\ (forall q e, fs q = Some e -> fs' q = Some e)
        /\ (os.exists_ fs d = true -> fs' = fs)
        /\ create_output_directory __file__ fs' = (fs', inr d)
    | (fs', inl e) =>
        os.exists_ fs output_dir = false
        /\ fs' = fs
        /\ (e = os.FileExistsError <-> fs output_dir = Some os.broken_link)
    end.
Proof.
  intros f fs d.
  rewrite create_output_directory_eq; fold d; cbv zeta.
  unfold os.exists_, os.mkdir.
  destruct (fs d) as [[| |]|] eqn:Ed; cbn [negb].
  - rewrite Ed; repeat split; try congruence.
    rewrite create_output_directory_eq; fold d; cbv zeta.
    unfold os.exists_; rewrite Ed; reflexivity.
  - rewrite Ed; repeat split; try congruence.
    rewrite create_output_directory_eq; fold d; cbv zeta.
    unfold os.exists_; rewrite Ed; reflexivity.
  - repeat split; congruence.
  - destruct (if String.eqb (os.dirname d) "" then Some os.directory
              else fs (os.dirname d)) as [[| |]|].
    + repeat split; congruence.
    + split; [reflexivity|].
      split; [rewrite String.eqb_refl; reflexivity|].
      split.
      * intros q e Eq.
        destruct (String.eqb_spec q d) as [->|N]; [congruence|exact Eq].
      * split; [rewrite Ed; discriminate|].
        rewrite create_output_directory_eq; fold d; cbv zeta.
        unfold os.exists_; rewrite String.eqb_refl; reflexivity.
    + repeat split; congruence.
    + repeat split; congruence.
Qed.

(** X12. The output directory lies beside the script: the path
    [create_output_directory] returns has the same parent directory
    ([os.path.dirname]) as the script. *)
Theorem output_directory_beside_script :
  forall (__file__ : string) (fs fs' : os.filesystem) (d : string),
    create_output_directory __file__ fs = (fs', inr d) ->
    os.dirname d = os.dirname __file__.
Proof.
  intros f fs fs' d E.
  apply create_output_directory_returns in E; subst d.
  destruct (splitext_cases f) as [E|(s1 & s2 & Es & E & _ & _ & Er)];
    rewrite E; cbn [fst]; [reflexivity|].
  apply (dirname_eq f s1 _ Es Er).
Qed.

Lemma output_directory_beside_script_witness :
  os.dirname "demos/lagaris_02_tf_adam" = os.dirname "demos/lagaris_02_tf_adam.py".
Proof.
  apply (@output_directory_beside_script "demos/lagaris_02_tf_adam.py"
           (fun q => if String.eqb q "demos" then Some os.directory
                     else None)
           (fun q => if String.eqb q "demos/lagaris_02_tf_adam"
                     then Some os.directory
                     else if String.eqb q "demos" then Some os.directory
                          else None)
           "demos/lagaris_02_tf_adam").
  reflexivity.
Defined.

(** X13. The directory returned is the path of the script without its
    extension: joined with the extension it gives the script path back;
    the extension is empty or a dot followed by characters that are
    neither a dot nor a slash; and the directory is the script path itself
    exactly when the extension is empty. *)
Theorem output_directory_is_script_without_extension :
  forall (__file__ : string) (fs fs' : os.filesystem) (d : string),
    create_output_directory __file__ fs = (fs', inr d) ->
    exists ext : string,
      os.splitext __file__ = (d, ext)
      /\ String.append d ext = __file__
      /\ (ext = EmptyString
          \/ exists e : string,
               ext = String "." e
               /\ Forall (fun a => a <> "."%char /\ a <> "/"%char)
                         (list_ascii_of_string e))
      /\ (ext = EmptyString <-> d = __file__).
Proof.
  intros f fs fs' d E.
  apply create_output_directory_returns in E; subst d.
  destruct (splitext_cases f) as [C|(s1 & s2 & Es & C & Fd & Fs & _)];
    rewrite C; cbn [fst].
  - exists EmptyString; split; [reflexivity|].
    split; [apply append_empty_r|].
    split; [left; reflexivity|]; split; reflexivity.
  - exists (string_of_list_ascii ("."%char :: s2)).
    split; [reflexivity|]; split; [|split].
    + rewrite <- string_of_list_ascii_app, <- Es.
      apply string_of_list_ascii_of_string.
    + right; exists (string_of_list_ascii s2); split; [reflexivity|].
      rewrite list_ascii_of_string_of_list_ascii.
      apply Forall_forall; intros a Ha; split.
      * exact (proj1 (Forall_forall _ _) Fd a Ha).
      * exact (proj1 (Forall_forall _ _) Fs a Ha).
    + split; [discriminate|].
      intros Ed; exfalso.
      apply (f_equal list_ascii_of_string) in Ed.
      rewrite list_ascii_of_string_of_list_ascii, Es in Ed.
      apply (f_equal (@length ascii)) in Ed.
      rewrite length_app in Ed; cbn [length] in Ed; lia.
Qed.

Lemma output_directory_is_script_without_extension_witness :
  let fs : os.filesystem :=
    fun q => if String.eqb q "demos" then Some os.directory else None in
  exists ext : string,
    os.splitext "demos/lagaris_02_tf_adam.py"
    = ("demos/lagaris_02_tf_adam"%string, ext)
    /\ String.append "demos/lagaris_02_tf_adam" ext
       = "demos/lagaris_02_tf_adam.py"%string
    /\ (ext = EmptyString
        \/ exists e : string,
             ext = String "." e
             /\ Forall (fun a => a <> "."%char /\ a <> "/"%char)
                       (list_ascii_of_string e))
    /\ (ext = EmptyString
        <-> "demos/lagaris_02_tf_adam"%string
            = "demos/lagaris_02_tf_adam.py"%string).
Proof.
  intros fs.
  apply (@output_directory_is_script_without_extension
           "demos/lagaris_02_tf_adam.py" fs
           (fun q => if String.eqb q "demos/lagaris_02_tf_adam"
                     then Some os.directory else fs q)
           "demos/lagaris_02_tf_adam").
  reflexivity.
Defined.

(** X14. A script whose name has no extension is its own output
    directory: the path returned is the script file, which exists, so
    nothing is created and the path returned is not a directory. *)
Theorem script_without_extension_is_its_own_output_directory :
  forall (__file__ : string) (fs : os.filesystem),
    snd (os.splitext __file__) = EmptyString ->
    fs __file__ = Some os.file ->
    create_output_directory __file__ fs = (fs, inr __file__)
    /\ fs __file__ <> Some os.directory.
Proof.
  intros f fs Ee Ef.
  assert (D : fst (os.splitext f) = f).
  { destruct (splitext_cases f) as [C|(s1 & s2 & _ & C & _)];
      rewrite C in *; [reflexivity|discriminate Ee]. }
  rewrite create_output_directory_eq, D; cbv zeta.
  unfold os.exists_; rewrite Ef; cbn [negb].
  split; [reflexivity|discriminate].
Qed.

Lemma script_without_extension_is_its_own_output_directory_witness :
  let fs : os.filesystem :=
    fun q => if String.eqb q "run_demo" then Some os.file else None in
  create_output_directory "run_demo" fs = (fs, inr "run_demo"%string)
  /\ fs "run_demo"%string <> Some os.directory.
Proof.
  intros fs.
  apply (@script_without_extension_is_its_own_output_directory
           "run_demo" fs); reflexivity.
Defined.
